(** * AgentPay Python SDK: a shallow embedding and its properties

    The SDK (package [agentspay]) is a thin client: every operation builds a
    request, hands it to [requests], reads the JSON reply and builds a
    dataclass from it, turning [requests.RequestException] into one of the
    SDK's own exception classes.

    The embedding follows the source module by module:
    - Python values as they come out of [response.json()] ([json]), with the
      dictionary and truthiness operations the SDK applies to them;
    - the exception classes of [exceptions.py] and the built-in exceptions
      that the parsing code can raise;
    - a small program monad [prog] whose only effect is "send one HTTP
      request and look at what came back", with [try/except] as a handler;
    - the dataclasses of [types.py], the five operation groups and the
      facade [AgentPayClient]. *)

From Stdlib Require Import String Ascii List ZArith Bool Lia.
From Stdlib Require Import DecimalString.
Import ListNotations.

Set Implicit Arguments.
Open Scope list_scope.
Open Scope string_scope.

(* ------------------------------------------------------------------ *)
(** ** Python values *)

(** A Python [str] is kept as the bytes of its UTF-8 encoding: literals,
    concatenation, equality, the empty string and substring search are then
    what they are on the text, and iterating goes character by character
    ([chars]).  The one operation of the SDK that depends on what the
    characters are, [str.upper()], is a function of the Python runtime and
    not of this repository: the operations that call it take it as the
    parameter [str_upper]. *)

(** What [response.json()] can return.  Numbers are the integers the
    dataclasses declare; the SDK only moves values around and tests their
    truthiness.  A [dict] is kept as its list of items, first binding of a
    key wins.  Python's [None] is what JSON [null] decodes to: [JNull] is
    both. *)
#[local] Unset Elimination Schemes.
Inductive json : Type :=
| JNull
| JBool (b : bool)
| JNum (n : Z)
| JStr (s : string)
| JArr (items : list json)
| JObj (fields : list (string * json)).
#[local] Set Elimination Schemes.

(** [bool(v)]: the test behind [if not wallet_data], [x or 0], [if limit]. *)
Definition truthy (v : json) : bool :=
  match v with
  | JNull => false
  | JBool b => b
  | JNum n => negb (n =? 0)%Z
  | JStr s => negb (s =? "")
  | JArr items => match items with [] => false | _ :: _ => true end
  | JObj fields => match fields with [] => false | _ :: _ => true end
  end.

(** [a or b] *)
Definition py_or (a b : json) : json := if truthy a then a else b.

Fixpoint dict_lookup (key : string) (d : list (string * json)) : option json :=
  match d with
  | [] => None
  | (k, v) :: rest => if k =? key then Some v else dict_lookup key rest
  end.

(** [d[key] = v]: a present key keeps its place, a new one goes last. *)
Fixpoint setitem {V : Type} (d : list (string * V)) (key : string) (v : V)
  : list (string * V) :=
  match d with
  | [] => [(key, v)]
  | (k, w) :: rest => if k =? key then (k, v) :: rest else (k, w) :: setitem rest key v
  end.

(** [v == s] for a [str] [s]: only an equal string compares equal. *)
Definition py_eq_str (v : json) (s : string) : bool :=
  match v with
  | JStr t => t =? s
  | _ => false
  end.

(** Upper-casing of the ASCII letters, every other byte kept: what
    [str.upper()] does on ASCII text.  On other text [str.upper()] follows
    Unicode's case mapping (it turns the long s, U+017F, into ["S"]), which
    is why the operations take [str_upper] as a parameter and [upper] only
    serves to say what [str_upper] does on ASCII text. *)
Definition upper_ascii (c : ascii) : ascii :=
  let n := nat_of_ascii c in
  if andb (97 <=? n)%nat (n <=? 122)%nat then ascii_of_nat (n - 32) else c.

Fixpoint upper (s : string) : string :=
  match s with
  | EmptyString => EmptyString
  | String c rest => String (upper_ascii c) (upper rest)
  end.

(** [s.rstrip("/")] *)
Fixpoint rstrip_slash (s : string) : string :=
  match s with
  | EmptyString => EmptyString
  | String c rest =>
      match rstrip_slash rest with
      | EmptyString => if Ascii.eqb c "/" then EmptyString else String c EmptyString
      | r => String c r
      end
  end.

(** [str(n)] for an [int]. *)
Definition str_int (n : Z) : string := NilZero.string_of_int (Z.to_int n).

(** A byte that continues a character started by an earlier byte. *)
Definition is_continuation (c : ascii) : bool :=
  let n := nat_of_ascii c in andb (128 <=? n)%nat (n <=? 191)%nat.

(** The characters of a string, as iterating over a [str] yields them:
    [current] holds the bytes of the character being read. *)
Fixpoint chars_from (current : option string) (s : string) : list json :=
  match s with
  | EmptyString =>
      match current with
      | Some ch => [JStr ch]
      | None => []
      end
  | String c rest =>
      match current with
      | Some ch =>
          if is_continuation c
          then chars_from (Some (ch ++ String c EmptyString)) rest
          else JStr ch :: chars_from (Some (String c EmptyString)) rest
      | None => chars_from (Some (String c EmptyString)) rest
      end
  end.

Definition chars (s : string) : list json := chars_from None s.

(* ------------------------------------------------------------------ *)
(** ** exceptions.py *)

Module exceptions.

(** The classes of [exceptions.py]. *)
Inductive ErrorClass : Type :=
| AgentPayError
| APIError
| ValidationError
| WalletError
| ServiceError
| PaymentError
| DisputeError
| WebhookError
| ExecutionError.

(** The base written in each [class X(Base)] header; [None] stands for
    the built-in [Exception]. *)
Definition base (c : ErrorClass) : option ErrorClass :=
  match c with
  | AgentPayError => None
  | _ => Some AgentPayError
  end.

Definition eqb (a b : ErrorClass) : bool :=
  match a, b with
  | AgentPayError, AgentPayError | APIError, APIError
  | ValidationError, ValidationError | WalletError, WalletError
  | ServiceError, ServiceError | PaymentError, PaymentError
  | DisputeError, DisputeError | WebhookError, WebhookError
  | ExecutionError, ExecutionError => true
  | _, _ => false
  end.

(** [issubclass(c, AgentPayError)] *)
Definition is_AgentPayError (c : ErrorClass) : bool :=
  match base c with
  | None => eqb c AgentPayError
  | Some b => eqb b AgentPayError
  end.

End exceptions.
Import exceptions.

(** What a call can raise: an SDK exception with its message, the
    transport's [requests.RequestException] (any subclass: connection
    error, timeout, [HTTPError] from [raise_for_status], JSON decoding
    error), one of the built-ins raised by indexing and attribute access,
    or whatever else the transport steps raise that is not a
    [RequestException], by the name of its class ([UnicodeEncodeError] for
    a header that cannot be encoded, [ValueError] or [RecursionError] from
    decoding the body, ...). *)
Inductive exn : Type :=
| SDK (cls : ErrorClass) (msg : string)
| RequestException (msg : string)
| KeyError (key : string)
| TypeError
| AttributeError
| OtherError (cls : string).

(** An exception of the SDK's own hierarchy. *)
Definition is_domain_error (e : exn) : bool :=
  match e with
  | SDK cls _ => is_AgentPayError cls
  | _ => false
  end.

(* ------------------------------------------------------------------ *)
(** ** Programs: one effect, sending a request *)

Inductive http_method : Type := GET | POST | PUT | DELETE.

(** The arguments of a [requests.get/post/put/delete] call. *)
Record request : Type := mk_request {
  method : http_method;
  url : string;
  headers : list (string * string);
  params : list (string * string);
  body : option json
}.

(** What the three transport steps [requests.<verb>(...)],
    [response.raise_for_status()] and [response.json()] give together:
    one of them raised a [requests.RequestException] whose [str()] is
    [cause] (connection error, timeout, [HTTPError] for a non-2xx status,
    JSON decoding error); or one of them raised an exception of another
    class [cls], which no [except requests.RequestException] clause
    catches; or the reply's decoded JSON. *)
Inductive response : Type :=
| Failure (cause : string)
| Reply (data : json)
| Crash (cls : string).

Inductive prog (A : Type) : Type :=
| Ret (a : A)
| Raise (e : exn)
| Send (r : request) (k : response -> prog A).

Arguments Ret {A} a.
Arguments Raise {A} e.
Arguments Send {A} r k.

Fixpoint bind {A B : Type} (p : prog A) (f : A -> prog B) : prog B :=
  match p with
  | Ret a => f a
  | Raise e => Raise e
  | Send r k => Send r (fun x => bind (k x) f)
  end.

Declare Scope prog_scope.
Delimit Scope prog_scope with prog.
Notation "x <- p ;; q" := (bind p (fun x => q))
  (at level 100, p at next level, right associativity) : prog_scope.
Open Scope prog_scope.

(** [try: p  except ...]: [handler] gives, for an exception raised inside
    the [try], the exception that leaves the statement (the same one when
    no clause matches or the clause is a bare [raise]). *)
Fixpoint try_except {A : Type} (p : prog A) (handler : exn -> exn) : prog A :=
  match p with
  | Ret a => Ret a
  | Raise e => Raise (handler e)
  | Send r k => Send r (fun x => try_except (k x) handler)
  end.

(** The clause [except requests.RequestException as e: raise h(str(e))]:
    any other exception passes through. *)
Definition on_RequestException (h : string -> exn) (e : exn) : exn :=
  match e with
  | RequestException cause => h cause
  | _ => e
  end.

(** [try: p  except requests.RequestException as e: raise h(str(e))] *)
Definition except_RequestException {A : Type} (p : prog A) (h : string -> exn) : prog A :=
  try_except p (on_RequestException h).

(** [requests.<verb>(url, ...)], [raise_for_status()], [response.json()]:
    the reply's JSON, or the transport's exception. *)
Definition http_json (r : request) : prog json :=
  Send r (fun x => match x with
                   | Failure cause => Raise (RequestException cause)
                   | Reply data => Ret data
                   | Crash cls => Raise (OtherError cls)
                   end).

(** The same without [response.json()] ([delete_webhook] never reads the
    body). *)
Definition http_status (r : request) : prog unit :=
  Send r (fun x => match x with
                   | Failure cause => Raise (RequestException cause)
                   | Reply _ => Ret tt
                   | Crash cls => Raise (OtherError cls)
                   end).

(** [[f(x) for x in xs]] with an [f] that may raise. *)
Fixpoint for_each {A B : Type} (f : A -> prog B) (xs : list A) : prog (list B) :=
  match xs with
  | [] => Ret []
  | x :: rest => y <- f x ;; ys <- for_each f rest ;; Ret (y :: ys)
  end.

(** [[x for x in xs if f(x)]] with an [f] that may raise. *)
Fixpoint select (f : json -> prog bool) (xs : list json) : prog (list json) :=
  match xs with
  | [] => Ret []
  | x :: rest =>
      keep <- f x ;; ys <- select f rest ;;
      Ret (if keep then x :: ys else ys)
  end.

(** *** Running a program against a server *)

Definition server : Type := request -> response.

Inductive outcome (A : Type) : Type :=
| Returned (a : A)
| Raised (e : exn).

Arguments Returned {A} a.
Arguments Raised {A} e.

(** The requests sent, in order, and how the call ended. *)
Fixpoint run {A : Type} (srv : server) (p : prog A) : list request * outcome A :=
  match p with
  | Ret a => ([], Returned a)
  | Raise e => ([], Raised e)
  | Send r k => let (sent, o) := run srv (k (srv r)) in (r :: sent, o)
  end.

Definition trace {A : Type} (srv : server) (p : prog A) : list request := fst (run srv p).
Definition result {A : Type} (srv : server) (p : prog A) : outcome A := snd (run srv p).

(** *** Dictionary access on a decoded value *)

(** [data[key]] *)
Definition getitem (data : json) (key : string) : prog json :=
  match data with
  | JObj fields =>
      match dict_lookup key fields with
      | Some v => Ret v
      | None => Raise (KeyError key)
      end
  | _ => Raise TypeError
  end.

(** [data.get(key, default)]; only a [dict] has the method. *)
Definition get_default (data : json) (key : string) (default : json) : prog json :=
  match data with
  | JObj fields =>
      match dict_lookup key fields with
      | Some v => Ret v
      | None => Ret default
      end
  | _ => Raise AttributeError
  end.

(** [data.get(key)] *)
Definition get (data : json) (key : string) : prog json := get_default data key JNull.

(** [key in data]: membership in a [dict]'s keys, in a [list]'s elements,
    substring test on a [str]; the other values are not containers. *)
Definition contains (key : string) (data : json) : prog bool :=
  match data with
  | JObj fields => Ret (match dict_lookup key fields with Some _ => true | None => false end)
  | JArr items => Ret (existsb (fun v => py_eq_str v key) items)
  | JStr s => Ret (match String.index 0 key s with Some _ => true | None => false end)
  | _ => Raise TypeError
  end.

(** [for x in data]: the values iteration yields. *)
Definition iterate (data : json) : prog (list json) :=
  match data with
  | JArr items => Ret items
  | JObj fields => Ret (map (fun kv => JStr (fst kv)) fields)
  | JStr s => Ret (chars s)
  | _ => Raise TypeError
  end.

(* ------------------------------------------------------------------ *)
(** ** types.py

    The dataclasses check nothing at run time: a field holds whatever
    value the parser put there, so every field is a [json] value, [JNull]
    for [None]. *)

Module AgentWallet.
Record t : Type := mk {
  id : json; public_key : json; address : json; created_at : json;
  balance : json; balance_mnee : json }.
End AgentWallet.

Module Service.
Record t : Type := mk {
  id : json; agent_id : json; name : json; description : json;
  category : json; price : json; currency : json; endpoint : json;
  method : json; active : json; timeout : json; dispute_window : json;
  created_at : json; updated_at : json;
  input_schema : json; output_schema : json }.
End Service.

Module Payment.
Record t : Type := mk {
  id : json; service_id : json; buyer_wallet_id : json;
  seller_wallet_id : json; amount : json; platform_fee : json;
  currency : json; status : json; created_at : json;
  dispute_status : json; tx_id : json; completed_at : json }.
End Payment.

Module ExecutionReceipt.
Record t : Type := mk {
  id : json; payment_id : json; service_id : json; input_hash : json;
  output_hash : json; timestamp : json; execution_time_ms : json;
  provider_signature : json; platform_signature : json;
  receipt_hash : json;
  blockchain_tx_id : json; blockchain_anchored_at : json }.
End ExecutionReceipt.

Module ExecutionResult.
Record t : Type := mk {
  payment_id : json; service_id : json; output : json;
  execution_time_ms : json; status : json;
  receipt : option ExecutionReceipt.t;
  payment : option Payment.t }.
End ExecutionResult.

Module ReputationScore.
Record t : Type := mk {
  agent_id : json; total_jobs : json; success_rate : json;
  avg_response_time_ms : json; total_earned : json; total_spent : json;
  rating : json }.
End ReputationScore.

Module Dispute.
Record t : Type := mk {
  id : json; payment_id : json; buyer_wallet_id : json;
  provider_wallet_id : json; reason : json; status : json;
  created_at : json;
  evidence : json; resolution : json; split_percent : json;
  resolved_at : json }.
End Dispute.

Module Webhook.
Record t : Type := mk {
  id : json; url : json; events : json; active : json;
  created_at : json; secret : json }.
End Webhook.

(** A Python [float] argument; the SDK only ever calls [str()] on it. *)
Record float : Type := { str_float : string }.

(* ------------------------------------------------------------------ *)
(** ** The operation groups

    The five classes have the same two attributes, set by [__init__]. *)

Record group : Type := mk_group {
  base_url : string;
  api_key : option string
}.

(** [if self.api_key:] on an [Optional[str]] *)
Definition key_set (api_key : option string) : option string :=
  match api_key with
  | Some k => if k =? "" then None else Some k
  | None => None
  end.

(** *** wallet.py *)

Module WalletOperations.

Definition _get_headers (self : group) : list (string * string) :=
  let headers := [("Content-Type", "application/json")] in
  match key_set (api_key self) with
  | Some k => setitem headers "Authorization" ("Bearer " ++ k)
  | None => headers
  end.

(** The [AgentWallet(...)] call that [create_wallet] and [get_wallet]
    both end with; arguments are evaluated in the order written. *)
Definition AgentWallet_ (wallet_data : json) : prog AgentWallet.t :=
  id <- getitem wallet_data "id" ;;
  public_key <- getitem wallet_data "publicKey" ;;
  address <- getitem wallet_data "address" ;;
  created_at <- getitem wallet_data "createdAt" ;;
  balance <- get wallet_data "balance" ;;
  balance_mnee <- get wallet_data "balanceMnee" ;;
  Ret (AgentWallet.mk id public_key address created_at balance balance_mnee).

Definition create_wallet (self : group) : prog AgentWallet.t :=
  except_RequestException
    (data <- http_json (mk_request POST (base_url self ++ "/api/wallets")
                                   (_get_headers self) [] None) ;;
     wallet_data <- get data "wallet" ;;
     if negb (truthy wallet_data)
     then Raise (SDK WalletError "Invalid response: missing wallet data")
     else AgentWallet_ wallet_data)
    (fun cause => SDK WalletError ("Failed to create wallet: " ++ cause)).

Definition get_wallet (self : group) (wallet_id : string) : prog AgentWallet.t :=
  except_RequestException
    (data <- http_json (mk_request GET (base_url self ++ "/api/wallets/" ++ wallet_id)
                                   (_get_headers self) [] None) ;;
     wallet_data <- get data "wallet" ;;
     if negb (truthy wallet_data)
     then Raise (SDK WalletError ("Wallet " ++ wallet_id ++ " not found"))
     else AgentWallet_ wallet_data)
    (fun cause => SDK WalletError ("Failed to get wallet: " ++ cause)).

Definition get_balance (str_upper : string -> string) (self : group)
    (wallet_id currency : string) : prog json :=
  wallet <- get_wallet self wallet_id ;;
  if str_upper currency =? "BSV" then
    Ret (py_or (AgentWallet.balance wallet) (JNum 0))
  else if str_upper currency =? "MNEE" then
    Ret (py_or (AgentWallet.balance_mnee wallet) (JNum 0))
  else
    Raise (SDK WalletError ("Invalid currency: " ++ currency)).

End WalletOperations.

(** *** services.py *)

Module ServiceOperations.

Definition _get_headers (self : group) : list (string * string) :=
  let headers := [("Content-Type", "application/json")] in
  match key_set (api_key self) with
  | Some k => setitem headers "Authorization" ("Bearer " ++ k)
  | None => headers
  end.

Definition _parse_service (data : json) : prog Service.t :=
  id <- getitem data "id" ;;
  agent_id <- getitem data "agentId" ;;
  name <- getitem data "name" ;;
  description <- getitem data "description" ;;
  category <- getitem data "category" ;;
  price <- getitem data "price" ;;
  currency <- getitem data "currency" ;;
  endpoint <- getitem data "endpoint" ;;
  method <- getitem data "method" ;;
  active <- getitem data "active" ;;
  timeout <- get_default data "timeout" (JNum 30) ;;
  dispute_window <- get_default data "disputeWindow" (JNum 30) ;;
  created_at <- getitem data "createdAt" ;;
  updated_at <- getitem data "updatedAt" ;;
  input_schema <- get data "inputSchema" ;;
  output_schema <- get data "outputSchema" ;;
  Ret (Service.mk id agent_id name description category price currency
                  endpoint method active timeout dispute_window
                  created_at updated_at input_schema output_schema).

Definition register_service (str_upper : string -> string) (self : group)
    (agent_id name description : string) (price : Z) (endpoint : string)
    (category currency method : string) (timeout dispute_window : Z)
    (input_schema output_schema : json) : prog Service.t :=
  let payload :=
    [("agentId", JStr agent_id); ("name", JStr name);
     ("description", JStr description); ("category", JStr category);
     ("price", JNum price); ("currency", JStr (str_upper currency));
     ("endpoint", JStr endpoint); ("method", JStr (str_upper method));
     ("timeout", JNum timeout); ("disputeWindow", JNum dispute_window)] in
  let payload :=
    if truthy input_schema then setitem payload "inputSchema" input_schema
    else payload in
  let payload :=
    if truthy output_schema then setitem payload "outputSchema" output_schema
    else payload in
  except_RequestException
    (data <- http_json (mk_request POST (base_url self ++ "/api/services")
                                   (_get_headers self) [] (Some (JObj payload))) ;;
     service_data <- get data "service" ;;
     if negb (truthy service_data)
     then Raise (SDK ServiceError "Invalid response: missing service data")
     else _parse_service service_data)
    (fun cause => SDK ServiceError ("Failed to register service: " ++ cause)).

Definition search_services (self : group)
    (keyword category : option string) (max_price : option Z)
    (min_rating : option float) (limit offset : Z) : prog (list Service.t) :=
  let params := [] in
  let params := match key_set keyword with
                | Some q => setitem params "q" q
                | None => params
                end in
  let params := match key_set category with
                | Some c => setitem params "category" c
                | None => params
                end in
  let params := match max_price with
                | Some m => setitem params "maxPrice" (str_int m)
                | None => params
                end in
  let params := match min_rating with
                | Some m => setitem params "minRating" (str_float m)
                | None => params
                end in
  let params := if truthy (JNum limit)
                then setitem params "limit" (str_int limit) else params in
  let params := if truthy (JNum offset)
                then setitem params "offset" (str_int offset) else params in
  except_RequestException
    (data <- http_json (mk_request GET (base_url self ++ "/api/services")
                                   (_get_headers self) params None) ;;
     services_data <- get_default data "services" (JArr []) ;;
     items <- iterate services_data ;;
     for_each _parse_service items)
    (fun cause => SDK ServiceError ("Failed to search services: " ++ cause)).

Definition get_service (self : group) (service_id : string) : prog Service.t :=
  except_RequestException
    (data <- http_json (mk_request GET (base_url self ++ "/api/services/" ++ service_id)
                                   (_get_headers self) [] None) ;;
     service_data <- get data "service" ;;
     if negb (truthy service_data)
     then Raise (SDK ServiceError ("Service " ++ service_id ++ " not found"))
     else _parse_service service_data)
    (fun cause => SDK ServiceError ("Failed to get service: " ++ cause)).

End ServiceOperations.

(** *** payments.py *)

Module PaymentOperations.

Definition _get_headers (self : group) : list (string * string) :=
  let headers := [("Content-Type", "application/json")] in
  match key_set (api_key self) with
  | Some k =>
      let headers := setitem headers "Authorization" ("Bearer " ++ k) in
      setitem headers "x-api-key" k
  | None => headers
  end.

Definition _parse_payment (data : json) : prog Payment.t :=
  id <- getitem data "id" ;;
  service_id <- getitem data "serviceId" ;;
  buyer_wallet_id <- getitem data "buyerWalletId" ;;
  seller_wallet_id <- getitem data "sellerWalletId" ;;
  amount <- getitem data "amount" ;;
  platform_fee <- getitem data "platformFee" ;;
  currency <- getitem data "currency" ;;
  status <- getitem data "status" ;;
  created_at <- getitem data "createdAt" ;;
  dispute_status <- get data "disputeStatus" ;;
  tx_id <- get data "txId" ;;
  completed_at <- get data "completedAt" ;;
  Ret (Payment.mk id service_id buyer_wallet_id seller_wallet_id amount
                  platform_fee currency status created_at
                  dispute_status tx_id completed_at).

Definition _parse_receipt (data : json) : prog ExecutionReceipt.t :=
  id <- getitem data "id" ;;
  payment_id <- getitem data "paymentId" ;;
  service_id <- getitem data "serviceId" ;;
  input_hash <- getitem data "inputHash" ;;
  output_hash <- getitem data "outputHash" ;;
  timestamp <- getitem data "timestamp" ;;
  execution_time_ms <- getitem data "executionTimeMs" ;;
  provider_signature <- getitem data "providerSignature" ;;
  platform_signature <- getitem data "platformSignature" ;;
  receipt_hash <- getitem data "receiptHash" ;;
  blockchain_tx_id <- get data "blockchainTxId" ;;
  blockchain_anchored_at <- get data "blockchainAnchoredAt" ;;
  Ret (ExecutionReceipt.mk id payment_id service_id input_hash output_hash
                           timestamp execution_time_ms provider_signature
                           platform_signature receipt_hash
                           blockchain_tx_id blockchain_anchored_at).

(** [key in data and data[key]], as a condition *)
Definition present_and_truthy (data : json) (key : string) : prog bool :=
  present <- contains key data ;;
  if present then v <- getitem data key ;; Ret (truthy v) else Ret false.

(** The [ExecutionResult(...)] call of [execute]. *)
Definition ExecutionResult_ (data : json) (service_id : string)
    (receipt : option ExecutionReceipt.t) (payment : option Payment.t)
  : prog ExecutionResult.t :=
  payment_id <- getitem data "paymentId" ;;
  service_id' <- get_default data "serviceId" (JStr service_id) ;;
  output <- get_default data "output" (JObj []) ;;
  execution_time_ms <- get_default data "executionTimeMs" (JNum 0) ;;
  status <- get_default data "status" (JStr "pending") ;;
  Ret (ExecutionResult.mk payment_id service_id' output execution_time_ms
                          status receipt payment).

Definition execute (self : group) (service_id buyer_wallet_id : string)
    (input_data : json) : prog ExecutionResult.t :=
  let payload := [("buyerWalletId", JStr buyer_wallet_id); ("input", input_data)] in
  except_RequestException
    (data <- http_json (mk_request POST (base_url self ++ "/api/execute/" ++ service_id)
                                   (_get_headers self) [] (Some (JObj payload))) ;;
     has_receipt <- present_and_truthy data "receipt" ;;
     receipt <- (if has_receipt
                 then v <- getitem data "receipt" ;;
                      r <- _parse_receipt v ;; Ret (Some r)
                 else Ret None) ;;
     has_payment <- present_and_truthy data "payment" ;;
     payment <- (if has_payment
                 then v <- getitem data "payment" ;;
                      p <- _parse_payment v ;; Ret (Some p)
                 else Ret None) ;;
     ExecutionResult_ data service_id receipt payment)
    (fun cause => SDK ExecutionError ("Service execution failed: " ++ cause)).

Definition get_payment (self : group) (payment_id : string) : prog Payment.t :=
  except_RequestException
    (data <- http_json (mk_request GET (base_url self ++ "/api/payments/" ++ payment_id)
                                   (_get_headers self) [] None) ;;
     payment_data <- get data "payment" ;;
     if negb (truthy payment_data)
     then Raise (SDK PaymentError ("Payment " ++ payment_id ++ " not found"))
     else _parse_payment payment_data)
    (fun cause => SDK PaymentError ("Failed to get payment: " ++ cause)).

Definition get_receipt (self : group) (receipt_id : string) : prog ExecutionReceipt.t :=
  except_RequestException
    (data <- http_json (mk_request GET (base_url self ++ "/api/receipts/" ++ receipt_id)
                                   (_get_headers self) [] None) ;;
     receipt_data <- get data "receipt" ;;
     if negb (truthy receipt_data)
     then Raise (SDK PaymentError ("Receipt " ++ receipt_id ++ " not found"))
     else _parse_receipt receipt_data)
    (fun cause => SDK PaymentError ("Failed to get receipt: " ++ cause)).

End PaymentOperations.

(** *** disputes.py *)

Module DisputeOperations.

Definition _get_headers (self : group) : list (string * string) :=
  let headers := [("Content-Type", "application/json")] in
  match key_set (api_key self) with
  | Some k =>
      let headers := setitem headers "Authorization" ("Bearer " ++ k) in
      setitem headers "x-api-key" k
  | None => headers
  end.

Definition _parse_dispute (data : json) : prog Dispute.t :=
  id <- getitem data "id" ;;
  payment_id <- getitem data "paymentId" ;;
  buyer_wallet_id <- getitem data "buyerWalletId" ;;
  provider_wallet_id <- getitem data "providerWalletId" ;;
  reason <- getitem data "reason" ;;
  status <- getitem data "status" ;;
  created_at <- getitem data "createdAt" ;;
  evidence <- get data "evidence" ;;
  resolution <- get data "resolution" ;;
  split_percent <- get data "splitPercent" ;;
  resolved_at <- get data "resolvedAt" ;;
  Ret (Dispute.mk id payment_id buyer_wallet_id provider_wallet_id reason
                  status created_at evidence resolution split_percent
                  resolved_at).

Definition open_dispute (self : group) (payment_id reason : string)
    (evidence : option string) : prog Dispute.t :=
  let payload := [("paymentId", JStr payment_id); ("reason", JStr reason)] in
  let payload := match key_set evidence with
                 | Some e => setitem payload "evidence" (JStr e)
                 | None => payload
                 end in
  except_RequestException
    (data <- http_json (mk_request POST (base_url self ++ "/api/disputes")
                                   (_get_headers self) [] (Some (JObj payload))) ;;
     dispute_data <- get data "dispute" ;;
     if negb (truthy dispute_data)
     then Raise (SDK DisputeError "Invalid response: missing dispute data")
     else _parse_dispute dispute_data)
    (fun cause => SDK DisputeError ("Failed to open dispute: " ++ cause)).

Definition get_dispute (self : group) (dispute_id : string) : prog Dispute.t :=
  except_RequestException
    (data <- http_json (mk_request GET (base_url self ++ "/api/disputes/" ++ dispute_id)
                                   (_get_headers self) [] None) ;;
     dispute_data <- get data "dispute" ;;
     if negb (truthy dispute_data)
     then Raise (SDK DisputeError ("Dispute " ++ dispute_id ++ " not found"))
     else _parse_dispute dispute_data)
    (fun cause => SDK DisputeError ("Failed to get dispute: " ++ cause)).

(** The condition of the comprehension: [d.get("paymentId") == payment_id] *)
Definition for_payment (payment_id : string) (d : json) : prog bool :=
  v <- get d "paymentId" ;; Ret (py_eq_str v payment_id).

Definition get_payment_disputes (self : group) (payment_id : string)
  : prog (list Dispute.t) :=
  except_RequestException
    (data <- http_json (mk_request GET (base_url self ++ "/api/disputes")
                                   (_get_headers self) [] None) ;;
     disputes_data <- get_default data "disputes" (JArr []) ;;
     items <- iterate disputes_data ;;
     filtered <- select (for_payment payment_id) items ;;
     for_each _parse_dispute filtered)
    (fun cause => SDK DisputeError ("Failed to get payment disputes: " ++ cause)).

Definition add_evidence (self : group) (dispute_id evidence : string) : prog Dispute.t :=
  Raise (SDK DisputeError
           ("Adding evidence after opening a dispute is not supported by this API version. "
            ++ "Pass evidence when calling open_dispute(...).")).

End DisputeOperations.

(** *** webhooks.py *)

Module WebhookOperations.

Definition _get_headers (self : group) : list (string * string) :=
  let headers := [("Content-Type", "application/json")] in
  match key_set (api_key self) with
  | Some k =>
      let headers := setitem headers "Authorization" ("Bearer " ++ k) in
      setitem headers "x-api-key" k
  | None => headers
  end.

Definition _parse_webhook (data : json) : prog Webhook.t :=
  id <- getitem data "id" ;;
  url <- getitem data "url" ;;
  events <- getitem data "events" ;;
  active <- getitem data "active" ;;
  created_at <- getitem data "createdAt" ;;
  secret <- get data "secret" ;;
  Ret (Webhook.mk id url events active created_at secret).

Definition register_webhook (self : group) (url : string) (events : list string)
  : prog Webhook.t :=
  let payload := [("url", JStr url); ("events", JArr (map JStr events))] in
  except_RequestException
    (data <- http_json (mk_request POST (base_url self ++ "/api/webhooks")
                                   (_get_headers self) [] (Some (JObj payload))) ;;
     webhook_data <- get data "webhook" ;;
     if negb (truthy webhook_data)
     then Raise (SDK WebhookError "Invalid response: missing webhook data")
     else _parse_webhook webhook_data)
    (fun cause => SDK WebhookError ("Failed to register webhook: " ++ cause)).

Definition list_webhooks (self : group) : prog (list Webhook.t) :=
  except_RequestException
    (data <- http_json (mk_request GET (base_url self ++ "/api/webhooks")
                                   (_get_headers self) [] None) ;;
     webhooks_data <- get_default data "webhooks" (JArr []) ;;
     items <- iterate webhooks_data ;;
     for_each _parse_webhook items)
    (fun cause => SDK WebhookError ("Failed to list webhooks: " ++ cause)).

(** The [for webhook in webhooks] loop of [get_webhook] and the [raise]
    after it. *)
Fixpoint scan (webhook_id : string) (webhooks : list Webhook.t) : prog Webhook.t :=
  match webhooks with
  | [] => Raise (SDK WebhookError ("Webhook " ++ webhook_id ++ " not found"))
  | webhook :: rest =>
      if py_eq_str (Webhook.id webhook) webhook_id then Ret webhook
      else scan webhook_id rest
  end.

Definition get_webhook (self : group) (webhook_id : string) : prog Webhook.t :=
  try_except
    (webhooks <- list_webhooks self ;;
     scan webhook_id webhooks)
    (fun e => match e with
              | SDK WebhookError _ => e
              | RequestException cause =>
                  SDK WebhookError ("Failed to get webhook: " ++ cause)
              | _ => e
              end).

Definition delete_webhook (self : group) (webhook_id : string) : prog bool :=
  except_RequestException
    (_ <- http_status (mk_request DELETE (base_url self ++ "/api/webhooks/" ++ webhook_id)
                                  (_get_headers self) [] None) ;;
     Ret true)
    (fun cause => SDK WebhookError ("Failed to delete webhook: " ++ cause)).

Definition update_webhook (self : group) (webhook_id : string)
    (url : option string) (events : option (list string)) (active : option bool)
  : prog Webhook.t :=
  let payload := [] in
  let payload := match url with
                 | Some u => setitem payload "url" (JStr u)
                 | None => payload
                 end in
  let payload := match events with
                 | Some ev => setitem payload "events" (JArr (map JStr ev))
                 | None => payload
                 end in
  let payload := match active with
                 | Some a => setitem payload "active" (JBool a)
                 | None => payload
                 end in
  except_RequestException
    (data <- http_json (mk_request PUT (base_url self ++ "/api/webhooks/" ++ webhook_id)
                                   (_get_headers self) [] (Some (JObj payload))) ;;
     webhook_data <- get data "webhook" ;;
     if negb (truthy webhook_data)
     then Raise (SDK WebhookError "Invalid response: missing webhook data")
     else _parse_webhook webhook_data)
    (fun cause => SDK WebhookError ("Failed to update webhook: " ++ cause)).

End WebhookOperations.

(* ------------------------------------------------------------------ *)
(** ** client.py: the facade *)

Module AgentPayClient.

Record t : Type := mk {
  base_url : string;
  api_key : option string;
  _wallet : group;
  _services : group;
  _payments : group;
  _disputes : group;
  _webhooks : group
}.

(** [AgentPayClient(base_url, api_key)] *)
Definition __init__ (base_url : string) (api_key : option string) : t :=
  let base_url := rstrip_slash base_url in
  mk base_url api_key
     (mk_group base_url api_key) (mk_group base_url api_key)
     (mk_group base_url api_key) (mk_group base_url api_key)
     (mk_group base_url api_key).

Definition create_wallet (self : t) := WalletOperations.create_wallet (_wallet self).
Definition get_wallet (self : t) := WalletOperations.get_wallet (_wallet self).
Definition get_balance (str_upper : string -> string) (self : t) :=
  WalletOperations.get_balance str_upper (_wallet self).
Definition register_service (str_upper : string -> string) (self : t) :=
  ServiceOperations.register_service str_upper (_services self).
Definition search_services (self : t) :=
  ServiceOperations.search_services (_services self).
Definition get_service (self : t) := ServiceOperations.get_service (_services self).
Definition execute (self : t) := PaymentOperations.execute (_payments self).
Definition get_payment (self : t) := PaymentOperations.get_payment (_payments self).
Definition get_receipt (self : t) := PaymentOperations.get_receipt (_payments self).
Definition open_dispute (self : t) := DisputeOperations.open_dispute (_disputes self).
Definition get_dispute (self : t) := DisputeOperations.get_dispute (_disputes self).
Definition get_payment_disputes (self : t) :=
  DisputeOperations.get_payment_disputes (_disputes self).
Definition add_dispute_evidence (self : t) :=
  DisputeOperations.add_evidence (_disputes self).
Definition register_webhook (self : t) :=
  WebhookOperations.register_webhook (_webhooks self).
Definition get_webhook (self : t) := WebhookOperations.get_webhook (_webhooks self).
Definition list_webhooks (self : t) := WebhookOperations.list_webhooks (_webhooks self).
Definition delete_webhook (self : t) := WebhookOperations.delete_webhook (_webhooks self).
Definition update_webhook (self : t) := WebhookOperations.update_webhook (_webhooks self).

(** The [ReputationScore(...)] call of [get_reputation]. *)
Definition ReputationScore_ (rep_data : json) : prog ReputationScore.t :=
  agent_id <- getitem rep_data "agentId" ;;
  total_jobs <- getitem rep_data "totalJobs" ;;
  success_rate <- getitem rep_data "successRate" ;;
  avg_response_time_ms <- getitem rep_data "avgResponseTimeMs" ;;
  total_earned <- getitem rep_data "totalEarned" ;;
  total_spent <- getitem rep_data "totalSpent" ;;
  rating <- getitem rep_data "rating" ;;
  Ret (ReputationScore.mk agent_id total_jobs success_rate
                          avg_response_time_ms total_earned total_spent rating).

Definition get_reputation (self : t) (agent_id : string) : prog ReputationScore.t :=
  except_RequestException
    (let headers := [("Content-Type", "application/json")] in
     let headers := match key_set (api_key self) with
                    | Some k => setitem headers "Authorization" ("Bearer " ++ k)
                    | None => headers
                    end in
     data <- http_json (mk_request GET
                          (base_url self ++ "/api/agents/" ++ agent_id ++ "/reputation")
                          headers [] None) ;;
     rep_data <- get data "reputation" ;;
     if negb (truthy rep_data)
     then Raise (SDK AgentPayError ("Reputation for agent " ++ agent_id ++ " not found"))
     else ReputationScore_ rep_data)
    (fun cause => SDK AgentPayError ("Failed to get reputation: " ++ cause)).

End AgentPayClient.

(* ------------------------------------------------------------------ *)
(** ** Every operation of the SDK

    The public methods of [AgentPayClient] with their arguments, so that a
    statement can range over "every operation", and what each returns. *)

Inductive operation : Type :=
| CreateWallet
| GetWallet (wallet_id : string)
| GetBalance (wallet_id currency : string)
| RegisterService (agent_id name description : string) (price : Z)
                  (endpoint category currency method : string)
                  (timeout dispute_window : Z) (input_schema output_schema : json)
| SearchServices (keyword category : option string) (max_price : option Z)
                 (min_rating : option float) (limit offset : Z)
| GetService (service_id : string)
| Execute (service_id buyer_wallet_id : string) (input_data : json)
| GetPayment (payment_id : string)
| GetReceipt (receipt_id : string)
| OpenDispute (payment_id reason : string) (evidence : option string)
| GetDispute (dispute_id : string)
| GetPaymentDisputes (payment_id : string)
| AddDisputeEvidence (dispute_id evidence : string)
| RegisterWebhook (url : string) (events : list string)
| GetWebhook (webhook_id : string)
| ListWebhooks
| DeleteWebhook (webhook_id : string)
| UpdateWebhook (webhook_id : string) (url : option string)
                (events : option (list string)) (active : option bool)
| GetReputation (agent_id : string).

Inductive value : Type :=
| VWallet (w : AgentWallet.t)
| VBalance (v : json)
| VService (s : Service.t)
| VServices (l : list Service.t)
| VExecution (r : ExecutionResult.t)
| VPayment (p : Payment.t)
| VReceipt (r : ExecutionReceipt.t)
| VDispute (d : Dispute.t)
| VDisputes (l : list Dispute.t)
| VWebhook (w : Webhook.t)
| VWebhooks (l : list Webhook.t)
| VBool (b : bool)
| VReputation (r : ReputationScore.t).

Definition returning {A : Type} (tag : A -> value) (p : prog A) : prog value :=
  a <- p ;; Ret (tag a).

(** Calling an operation of the client.  [str_upper] is [str.upper()], used
    by [get_balance] and [register_service]; the worked examples take
    [upper] for it, which is what it does on their ASCII arguments. *)
Definition call (str_upper : string -> string) (client : AgentPayClient.t)
           (op : operation) : prog value :=
  match op with
  | CreateWallet => returning VWallet (AgentPayClient.create_wallet client)
  | GetWallet wallet_id => returning VWallet (AgentPayClient.get_wallet client wallet_id)
  | GetBalance wallet_id currency =>
      returning VBalance (AgentPayClient.get_balance str_upper client wallet_id currency)
  | RegisterService agent_id name description price endpoint category currency
                    method timeout dispute_window input_schema output_schema =>
      returning VService
        (AgentPayClient.register_service str_upper client agent_id name description price
           endpoint category currency method timeout dispute_window
           input_schema output_schema)
  | SearchServices keyword category max_price min_rating limit offset =>
      returning VServices
        (AgentPayClient.search_services client keyword category max_price
           min_rating limit offset)
  | GetService service_id => returning VService (AgentPayClient.get_service client service_id)
  | Execute service_id buyer_wallet_id input_data =>
      returning VExecution
        (AgentPayClient.execute client service_id buyer_wallet_id input_data)
  | GetPayment payment_id => returning VPayment (AgentPayClient.get_payment client payment_id)
  | GetReceipt receipt_id => returning VReceipt (AgentPayClient.get_receipt client receipt_id)
  | OpenDispute payment_id reason evidence =>
      returning VDispute (AgentPayClient.open_dispute client payment_id reason evidence)
  | GetDispute dispute_id => returning VDispute (AgentPayClient.get_dispute client dispute_id)
  | GetPaymentDisputes payment_id =>
      returning VDisputes (AgentPayClient.get_payment_disputes client payment_id)
  | AddDisputeEvidence dispute_id evidence =>
      returning VDispute (AgentPayClient.add_dispute_evidence client dispute_id evidence)
  | RegisterWebhook url events =>
      returning VWebhook (AgentPayClient.register_webhook client url events)
  | GetWebhook webhook_id => returning VWebhook (AgentPayClient.get_webhook client webhook_id)
  | ListWebhooks => returning VWebhooks (AgentPayClient.list_webhooks client)
  | DeleteWebhook webhook_id =>
      returning VBool (AgentPayClient.delete_webhook client webhook_id)
  | UpdateWebhook webhook_id url events active =>
      returning VWebhook (AgentPayClient.update_webhook client webhook_id url events active)
  | GetReputation agent_id =>
      returning VReputation (AgentPayClient.get_reputation client agent_id)
  end.

(* ------------------------------------------------------------------ *)
(** ** Expected behaviour, as tables over the operations

    The definitions from here to the sample payloads do not embed code:
    they say what is expected of an operation (its error class, its
    messages, its headers, how each field of a record is read), and the
    theorems compare them with what the embedded operations compute. *)

(** The error class each operation reports failures with. *)
Definition resource_error (op : operation) : ErrorClass :=
  match op with
  | CreateWallet | GetWallet _ | GetBalance _ _ => WalletError
  | RegisterService _ _ _ _ _ _ _ _ _ _ _ _ | SearchServices _ _ _ _ _ _
  | GetService _ => ServiceError
  | Execute _ _ _ => ExecutionError
  | GetPayment _ | GetReceipt _ => PaymentError
  | OpenDispute _ _ _ | GetDispute _ | GetPaymentDisputes _
  | AddDisputeEvidence _ _ => DisputeError
  | RegisterWebhook _ _ | GetWebhook _ | ListWebhooks | DeleteWebhook _
  | UpdateWebhook _ _ _ _ => WebhookError
  | GetReputation _ => AgentPayError
  end.

(** The text put in front of the transport's message. *)
Definition failure_prefix (op : operation) : string :=
  match op with
  | CreateWallet => "Failed to create wallet: "
  | GetWallet _ | GetBalance _ _ => "Failed to get wallet: "
  | RegisterService _ _ _ _ _ _ _ _ _ _ _ _ => "Failed to register service: "
  | SearchServices _ _ _ _ _ _ => "Failed to search services: "
  | GetService _ => "Failed to get service: "
  | Execute _ _ _ => "Service execution failed: "
  | GetPayment _ => "Failed to get payment: "
  | GetReceipt _ => "Failed to get receipt: "
  | OpenDispute _ _ _ => "Failed to open dispute: "
  | GetDispute _ => "Failed to get dispute: "
  | GetPaymentDisputes _ => "Failed to get payment disputes: "
  | AddDisputeEvidence _ _ => ""
  | RegisterWebhook _ _ => "Failed to register webhook: "
  | GetWebhook _ | ListWebhooks => "Failed to list webhooks: "
  | DeleteWebhook _ => "Failed to delete webhook: "
  | UpdateWebhook _ _ _ _ => "Failed to update webhook: "
  | GetReputation _ => "Failed to get reputation: "
  end.

(** The resource groups of the facade. *)
Inductive resource : Type :=
| Wallets | Services | Payments | Disputes | Webhooks | Reputation.

Definition resource_of (op : operation) : resource :=
  match op with
  | CreateWallet | GetWallet _ | GetBalance _ _ => Wallets
  | RegisterService _ _ _ _ _ _ _ _ _ _ _ _ | SearchServices _ _ _ _ _ _
  | GetService _ => Services
  | Execute _ _ _ | GetPayment _ | GetReceipt _ => Payments
  | OpenDispute _ _ _ | GetDispute _ | GetPaymentDisputes _
  | AddDisputeEvidence _ _ => Disputes
  | RegisterWebhook _ _ | GetWebhook _ | ListWebhooks | DeleteWebhook _
  | UpdateWebhook _ _ _ _ => Webhooks
  | GetReputation _ => Reputation
  end.

(** Groups that send the credential twice. *)
Definition sends_api_key_header (g : resource) : bool :=
  match g with
  | Payments | Disputes | Webhooks => true
  | Wallets | Services | Reputation => false
  end.

(** The top-level key a single-record operation requires in the reply. *)
Definition success_key (op : operation) : option string :=
  match op with
  | CreateWallet | GetWallet _ => Some "wallet"
  | RegisterService _ _ _ _ _ _ _ _ _ _ _ _ | GetService _ => Some "service"
  | GetPayment _ => Some "payment"
  | GetReceipt _ => Some "receipt"
  | OpenDispute _ _ _ | GetDispute _ => Some "dispute"
  | RegisterWebhook _ _ | UpdateWebhook _ _ _ _ => Some "webhook"
  | GetReputation _ => Some "reputation"
  | _ => None
  end.

(** The message of the error raised when that key is missing. *)
Definition missing_message (op : operation) : string :=
  match op with
  | CreateWallet => "Invalid response: missing wallet data"
  | GetWallet wallet_id => "Wallet " ++ wallet_id ++ " not found"
  | RegisterService _ _ _ _ _ _ _ _ _ _ _ _ => "Invalid response: missing service data"
  | GetService service_id => "Service " ++ service_id ++ " not found"
  | GetPayment payment_id => "Payment " ++ payment_id ++ " not found"
  | GetReceipt receipt_id => "Receipt " ++ receipt_id ++ " not found"
  | OpenDispute _ _ _ => "Invalid response: missing dispute data"
  | GetDispute dispute_id => "Dispute " ++ dispute_id ++ " not found"
  | RegisterWebhook _ _ | UpdateWebhook _ _ _ _ => "Invalid response: missing webhook data"
  | GetReputation agent_id => "Reputation for agent " ++ agent_id ++ " not found"
  | _ => ""
  end.

(** *** How each field of a record is read from the wire *)

Inductive rule : Type :=
| Required                (* [data[key]] *)
| Optional                (* [data.get(key)]: [None] when the key is missing *)
| Defaulted (v : json).   (* [data.get(key, v)]: [v] when the key is missing *)

Record field (R : Type) : Type := mk_field {
  wire_key : string;
  how : rule;
  attr : R -> json
}.

Arguments mk_field {R} wire_key how attr.

(** What the field holds for a found / missing key; [None] when no record
    can be built. *)
Definition field_value (r : rule) (found : option json) : option json :=
  match found, r with
  | Some v, _ => Some v
  | None, Required => None
  | None, Optional => Some JNull
  | None, Defaulted v => Some v
  end.

Definition is_required (r : rule) : bool :=
  match r with Required => true | _ => false end.

Definition is_defaulted (r : rule) : bool :=
  match r with Defaulted _ => true | _ => false end.

Definition required_keys {R : Type} (table : list (field R)) : list string :=
  map (@wire_key R) (filter (fun f => is_required (how f)) table).

Definition defaults {R : Type} (table : list (field R)) : list (string * rule) :=
  map (fun f => (wire_key f, how f)) (filter (fun f => is_defaulted (how f)) table).

(** A parser reads its record the way the table says: a returned record
    holds, field by field, the value the rule gives; otherwise the parser
    raised [KeyError] for a required key that is missing. *)
Definition obeys {R : Type} (table : list (field R)) (parse : json -> prog R) : Prop :=
  forall record : list (string * json),
    match parse (JObj record) with
    | Ret r =>
        Forall (fun f => field_value (how f) (dict_lookup (wire_key f) record)
                         = Some (attr f r)) table
    | Raise e =>
        exists key, e = KeyError key /\ In key (required_keys table)
                    /\ dict_lookup key record = None
    | Send _ _ => False
    end.

Definition wallet_fields : list (field AgentWallet.t) :=
  [ mk_field "id" Required AgentWallet.id;
    mk_field "publicKey" Required AgentWallet.public_key;
    mk_field "address" Required AgentWallet.address;
    mk_field "createdAt" Required AgentWallet.created_at;
    mk_field "balance" Optional AgentWallet.balance;
    mk_field "balanceMnee" Optional AgentWallet.balance_mnee ].

Definition service_fields : list (field Service.t) :=
  [ mk_field "id" Required Service.id;
    mk_field "agentId" Required Service.agent_id;
    mk_field "name" Required Service.name;
    mk_field "description" Required Service.description;
    mk_field "category" Required Service.category;
    mk_field "price" Required Service.price;
    mk_field "currency" Required Service.currency;
    mk_field "endpoint" Required Service.endpoint;
    mk_field "method" Required Service.method;
    mk_field "active" Required Service.active;
    mk_field "timeout" (Defaulted (JNum 30)) Service.timeout;
    mk_field "disputeWindow" (Defaulted (JNum 30)) Service.dispute_window;
    mk_field "createdAt" Required Service.created_at;
    mk_field "updatedAt" Required Service.updated_at;
    mk_field "inputSchema" Optional Service.input_schema;
    mk_field "outputSchema" Optional Service.output_schema ].

Definition payment_fields : list (field Payment.t) :=
  [ mk_field "id" Required Payment.id;
    mk_field "serviceId" Required Payment.service_id;
    mk_field "buyerWalletId" Required Payment.buyer_wallet_id;
    mk_field "sellerWalletId" Required Payment.seller_wallet_id;
    mk_field "amount" Required Payment.amount;
    mk_field "platformFee" Required Payment.platform_fee;
    mk_field "currency" Required Payment.currency;
    mk_field "status" Required Payment.status;
    mk_field "createdAt" Required Payment.created_at;
    mk_field "disputeStatus" Optional Payment.dispute_status;
    mk_field "txId" Optional Payment.tx_id;
    mk_field "completedAt" Optional Payment.completed_at ].

Definition receipt_fields : list (field ExecutionReceipt.t) :=
  [ mk_field "id" Required ExecutionReceipt.id;
    mk_field "paymentId" Required ExecutionReceipt.payment_id;
    mk_field "serviceId" Required ExecutionReceipt.service_id;
    mk_field "inputHash" Required ExecutionReceipt.input_hash;
    mk_field "outputHash" Required ExecutionReceipt.output_hash;
    mk_field "timestamp" Required ExecutionReceipt.timestamp;
    mk_field "executionTimeMs" Required ExecutionReceipt.execution_time_ms;
    mk_field "providerSignature" Required ExecutionReceipt.provider_signature;
    mk_field "platformSignature" Required ExecutionReceipt.platform_signature;
    mk_field "receiptHash" Required ExecutionReceipt.receipt_hash;
    mk_field "blockchainTxId" Optional ExecutionReceipt.blockchain_tx_id;
    mk_field "blockchainAnchoredAt" Optional ExecutionReceipt.blockchain_anchored_at ].

Definition dispute_fields : list (field Dispute.t) :=
  [ mk_field "id" Required Dispute.id;
    mk_field "paymentId" Required Dispute.payment_id;
    mk_field "buyerWalletId" Required Dispute.buyer_wallet_id;
    mk_field "providerWalletId" Required Dispute.provider_wallet_id;
    mk_field "reason" Required Dispute.reason;
    mk_field "status" Required Dispute.status;
    mk_field "createdAt" Required Dispute.created_at;
    mk_field "evidence" Optional Dispute.evidence;
    mk_field "resolution" Optional Dispute.resolution;
    mk_field "splitPercent" Optional Dispute.split_percent;
    mk_field "resolvedAt" Optional Dispute.resolved_at ].

Definition webhook_fields : list (field Webhook.t) :=
  [ mk_field "id" Required Webhook.id;
    mk_field "url" Required Webhook.url;
    mk_field "events" Required Webhook.events;
    mk_field "active" Required Webhook.active;
    mk_field "createdAt" Required Webhook.created_at;
    mk_field "secret" Optional Webhook.secret ].

Definition reputation_fields : list (field ReputationScore.t) :=
  [ mk_field "agentId" Required ReputationScore.agent_id;
    mk_field "totalJobs" Required ReputationScore.total_jobs;
    mk_field "successRate" Required ReputationScore.success_rate;
    mk_field "avgResponseTimeMs" Required ReputationScore.avg_response_time_ms;
    mk_field "totalEarned" Required ReputationScore.total_earned;
    mk_field "totalSpent" Required ReputationScore.total_spent;
    mk_field "rating" Required ReputationScore.rating ].

(** The top-level fields of an execution reply; [service_id] is the
    argument of the call. *)
Definition execution_fields (service_id : string) : list (field ExecutionResult.t) :=
  [ mk_field "paymentId" Required ExecutionResult.payment_id;
    mk_field "serviceId" (Defaulted (JStr service_id)) ExecutionResult.service_id;
    mk_field "output" (Defaulted (JObj [])) ExecutionResult.output;
    mk_field "executionTimeMs" (Defaulted (JNum 0)) ExecutionResult.execution_time_ms;
    mk_field "status" (Defaulted (JStr "pending")) ExecutionResult.status ].

(** The mandatory fields of the record nested under the success key. *)
Definition mandatory_fields (op : operation) : list string :=
  match op with
  | CreateWallet | GetWallet _ => required_keys wallet_fields
  | RegisterService _ _ _ _ _ _ _ _ _ _ _ _ | GetService _ => required_keys service_fields
  | GetPayment _ => required_keys payment_fields
  | GetReceipt _ => required_keys receipt_fields
  | OpenDispute _ _ _ | GetDispute _ => required_keys dispute_fields
  | RegisterWebhook _ _ | UpdateWebhook _ _ _ _ => required_keys webhook_fields
  | GetReputation _ => required_keys reputation_fields
  | _ => []
  end.

(** *** Comparing currency codes without regard to letter case *)

Definition is_lower (c : ascii) : bool :=
  let n := nat_of_ascii c in andb (97 <=? n)%nat (n <=? 122)%nat.

Definition is_upper (c : ascii) : bool :=
  let n := nat_of_ascii c in andb (65 <=? n)%nat (n <=? 90)%nat.

(** The same character, or the same letter in the other case. *)
Definition same_letter (a b : ascii) : bool :=
  orb (Ascii.eqb a b)
      (orb (andb (is_lower a) (nat_of_ascii b =? nat_of_ascii a - 32)%nat)
           (andb (is_upper a) (nat_of_ascii b =? nat_of_ascii a + 32)%nat)).

Fixpoint eq_ignore_case (s t : string) : bool :=
  match s, t with
  | EmptyString, EmptyString => true
  | String a s', String b t' => andb (same_letter a b) (eq_ignore_case s' t')
  | _, _ => false
  end.

Definition all_ascii : list ascii := map ascii_of_nat (seq 0 256).

(** The text has ASCII characters only. *)
Fixpoint is_ascii (s : string) : bool :=
  match s with
  | EmptyString => true
  | String c rest => andb (nat_of_ascii c <? 128)%nat (is_ascii rest)
  end.

(** The wallet field an upper-cased currency code selects. *)
Definition selected_balance (code : string) : option string :=
  if code =? "BSV" then Some "balance"
  else if code =? "MNEE" then Some "balanceMnee"
  else None.

(** The wallet field a currency code selects when letters are compared
    without regard to (ASCII) case. *)
Definition balance_key (currency : string) : option string :=
  if eq_ignore_case currency "BSV" then Some "balance"
  else if eq_ignore_case currency "MNEE" then Some "balanceMnee"
  else None.

(** *** Disputes of a payment *)

(** The dispute object carries this payment id. *)
Definition has_payment_id (payment_id : string) (d : json) : bool :=
  match d with
  | JObj fields =>
      match dict_lookup "paymentId" fields with
      | Some (JStr s) => s =? payment_id
      | _ => false
      end
  | _ => false
  end.

Definition is_object (d : json) : bool :=
  match d with JObj _ => true | _ => false end.

(** *** An optional object embedded in a reply *)

Inductive embedded {R : Type} (parse : json -> prog R) (key : string)
          (fields : list (string * json)) : option R -> Prop :=
| embedded_absent :
    dict_lookup key fields = None -> embedded parse key fields None
| embedded_empty v :
    dict_lookup key fields = Some v -> truthy v = false ->
    embedded parse key fields None
| embedded_present v r :
    dict_lookup key fields = Some v -> truthy v = true -> parse v = Ret r ->
    embedded parse key fields (Some r).

(** *** Headers *)

Definition content_type : string * string := ("Content-Type", "application/json").

(** The headers a request of group [g] is expected to carry. *)
Definition expected_headers (g : resource) (api_key : option string)
  : list (string * string) :=
  match api_key with
  | None => [content_type]
  | Some k =>
      if k =? "" then [content_type]
      else if sends_api_key_header g
           then [content_type; ("Authorization", "Bearer " ++ k); ("x-api-key", k)]
           else [content_type; ("Authorization", "Bearer " ++ k)]
  end.

(** *** Outcomes *)

(** A program that sends no request. *)
Definition sends_nothing {A : Type} (p : prog A) : Prop :=
  match p with
  | Send _ _ => False
  | _ => True
  end.

(** What [try ... except] makes of an outcome. *)
Definition handled {A : Type} (handler : exn -> exn) (o : outcome A) : outcome A :=
  match o with
  | Returned a => Returned a
  | Raised e => Raised (handler e)
  end.

(** What [returning] makes of an outcome. *)
Definition tagged {A : Type} (tag : A -> value) (o : outcome A) : outcome value :=
  match o with
  | Returned a => Returned (tag a)
  | Raised e => Raised e
  end.

(** The outcome of a program that sends nothing. *)
Definition outcome_of {A : Type} (p : prog A) : outcome A :=
  result (fun _ => Failure "") p.

(** *** Sample payloads *)

(** The wallet of the SDK's own test. *)
Definition sample_wallet : list (string * json) :=
  [ ("id", JStr "wallet_123"); ("publicKey", JStr "pub_key_abc");
    ("address", JStr "1A1zP1eP5QGefi2DMPTfTL5SLmv7DivfNa");
    ("createdAt", JStr "2026-02-14T12:00:00Z");
    ("balance", JNum 100000); ("balanceMnee", JNum 5000) ].

(** A well-formed dispute payload. *)
Definition sample_dispute (id payment_id : string) : json :=
  JObj [ ("id", JStr id); ("paymentId", JStr payment_id);
         ("buyerWalletId", JStr "wallet_123"); ("providerWalletId", JStr "wallet_456");
         ("reason", JStr "no output"); ("status", JStr "open");
         ("createdAt", JStr "2026-02-14T12:00:00Z") ].

(** Two disputes of [pay_1] around one of [pay_2] that lacks every field
    but its payment id. *)
Definition sample_disputes : list json :=
  [ sample_dispute "d1" "pay_1";
    JObj [("paymentId", JStr "pay_2")];
    sample_dispute "d3" "pay_1" ].

(** A well-formed webhook payload. *)
Definition sample_webhook (id url : string) : json :=
  JObj [ ("id", JStr id); ("url", JStr url);
         ("events", JArr [JStr "payment.completed"]); ("active", JBool true);
         ("createdAt", JStr "2026-02-14T12:00:00Z") ].

(** A service payload without ["timeout"] and ["disputeWindow"]. *)
Definition service_without_timeout : json :=
  JObj [ ("id", JStr "service_456"); ("agentId", JStr "wallet_123");
         ("name", JStr "TextAnalyzer"); ("description", JStr "NLP service");
         ("category", JStr "nlp"); ("price", JNum 1000); ("currency", JStr "BSV");
         ("endpoint", JStr "https://agent.com/analyze"); ("method", JStr "POST");
         ("active", JBool true);
         ("createdAt", JStr "2026-02-14T12:00:00Z");
         ("updatedAt", JStr "2026-02-14T12:00:00Z") ].

(** *** The wire contract *)


(** The string ends with a slash. *)
Fixpoint ends_with_slash (s : string) : bool :=
  match s with
  | EmptyString => false
  | String c EmptyString => Ascii.eqb c "/"
  | String _ rest => ends_with_slash rest
  end.

(** [n] slashes. *)
Fixpoint slashes (n : nat) : string :=
  match n with
  | O => EmptyString
  | S m => String "/" (slashes m)
  end.







(** *** The exceptions an operation may end with *)

(** A built-in raised by reading a value: not an SDK class, not the
    transport's. *)
Definition builtin (e : exn) : bool :=
  match e with
  | KeyError _ | TypeError | AttributeError => true
  | SDK _ _ | RequestException _ | OtherError _ => false
  end.

(** What the SDK's code raises by itself in an operation of class [cls]: a
    built-in from reading the reply, or an SDK exception of class [cls];
    not what the transport raised. *)
Definition own (cls : ErrorClass) (e : exn) : bool :=
  match e with
  | SDK c _ => exceptions.eqb c cls
  | RequestException _ | OtherError _ => false
  | KeyError _ | TypeError | AttributeError => true
  end.

(** A program that sends nothing and, if it raises, raises within [P]. *)
Definition only {A : Type} (P : exn -> bool) (p : prog A) : Prop :=
  match p with
  | Ret _ => True
  | Raise e => P e = true
  | Send _ _ => False
  end.


(** How a listing ends, given the object the server replied with: the
    entries under [key] are parsed one by one, in order. *)
Definition listing_behaviour {A : Type} (parse : json -> prog A) (key : string)
           (fields : list (string * json)) (o : outcome (list A)) : Prop :=
  (dict_lookup key fields = None -> o = Returned [])
  /\ (dict_lookup key fields = Some (JArr []) -> o = Returned [])
  /\ (forall items,
         dict_lookup key fields = Some (JArr items) ->
         (forall x, In x items -> exists a, parse x = Ret a) ->
         exists l, o = Returned l /\ Forall2 (fun x a => parse x = Ret a) items l)
  /\ (forall good bad rest missing,
         dict_lookup key fields = Some (JArr (good ++ bad :: rest)%list) ->
         (forall x, In x good -> exists a, parse x = Ret a) ->
         parse bad = Raise (KeyError missing) ->
         o = Raised (KeyError missing))
  /\ (dict_lookup key fields = Some JNull -> o = Raised TypeError).

(** The outcome of parsing the value found under a success key. *)
Definition parsed_as (key : string) (v : json) : outcome value :=
  if key =? "wallet" then tagged VWallet (outcome_of (WalletOperations.AgentWallet_ v))
  else if key =? "service" then tagged VService (outcome_of (ServiceOperations._parse_service v))
  else if key =? "payment" then tagged VPayment (outcome_of (PaymentOperations._parse_payment v))
  else if key =? "receipt" then tagged VReceipt (outcome_of (PaymentOperations._parse_receipt v))
  else if key =? "dispute" then tagged VDispute (outcome_of (DisputeOperations._parse_dispute v))
  else if key =? "webhook" then tagged VWebhook (outcome_of (WebhookOperations._parse_webhook v))
  else tagged VReputation (outcome_of (AgentPayClient.ReputationScore_ v)).


(** The identifying field of a returned record. *)
Definition identifier (v : value) : option json :=
  match v with
  | VWallet w => Some (AgentWallet.id w)
  | VService s => Some (Service.id s)
  | VPayment p => Some (Payment.id p)
  | VReceipt r => Some (ExecutionReceipt.id r)
  | VDispute d => Some (Dispute.id d)
  | VWebhook w => Some (Webhook.id w)
  | VReputation r => Some (ReputationScore.agent_id r)
  | _ => None
  end.

(** The wire key of the identifying field. *)
Definition identifier_key (op : operation) : string :=
  match op with
  | GetReputation _ => "agentId"
  | _ => "id"
  end.

(* ------------------------------------------------------------------ *)
(** ** Running programs: general facts *)

Section Running.

Variable srv : server.

Lemma run_bind (A B : Type) (p : prog A) (f : A -> prog B) :
  run srv (bind p f) =
  match run srv p with
  | (sent, Returned a) => let (sent', o) := run srv (f a) in (app sent sent', o)
  | (sent, Raised e) => (sent, Raised e)
  end.
Proof.
  induction p as [a | e | r k IH]; simpl.
  - destruct (run srv (f a)); reflexivity.
  - reflexivity.
  - rewrite IH. destruct (run srv (k (srv r))) as [sent [a | e]].
    + destruct (run srv (f a)); reflexivity.
    + reflexivity.
Qed.

Lemma run_try_except (A : Type) (p : prog A) (handler : exn -> exn) :
  run srv (try_except p handler) =
  match run srv p with
  | (sent, Returned a) => (sent, Returned a)
  | (sent, Raised e) => (sent, Raised (handler e))
  end.
Proof.
  induction p as [a | e | r k IH]; simpl; try reflexivity.
  rewrite IH. destruct (run srv (k (srv r))) as [sent [a | e]]; reflexivity.
Qed.

Lemma run_returning (A : Type) (tag : A -> value) (p : prog A) :
  run srv (returning tag p) =
  match run srv p with
  | (sent, Returned a) => (sent, Returned (tag a))
  | (sent, Raised e) => (sent, Raised e)
  end.
Proof.
  unfold returning. rewrite run_bind.
  destruct (run srv p) as [sent [a | e]]; simpl; try reflexivity.
  rewrite app_nil_r. reflexivity.
Qed.

Lemma run_http_json (r : request) :
  run srv (http_json r) =
  ([r], match srv r with
        | Failure cause => Raised (RequestException cause)
        | Reply data => Returned data
        | Crash cls => Raised (OtherError cls)
        end).
Proof. simpl. destruct (srv r); reflexivity. Qed.

End Running.


(** *** Programs that send nothing *)

Create HintDb quiet discriminated.

Lemma quiet_Ret (A : Type) (a : A) : sends_nothing (Ret a).
Proof. exact I. Qed.

Lemma quiet_Raise (A : Type) (e : exn) : sends_nothing (@Raise A e).
Proof. exact I. Qed.

Lemma quiet_bind (A B : Type) (p : prog A) (f : A -> prog B) :
  sends_nothing p -> (forall a, sends_nothing (f a)) -> sends_nothing (bind p f).
Proof. destruct p; simpl; auto. Qed.

Lemma quiet_if (A : Type) (b : bool) (p q : prog A) :
  sends_nothing p -> sends_nothing q -> sends_nothing (if b then p else q).
Proof. destruct b; auto. Qed.

Lemma quiet_getitem (data : json) (key : string) : sends_nothing (getitem data key).
Proof. destruct data; simpl; auto. destruct (dict_lookup key fields); exact I. Qed.

Lemma quiet_get_default (data : json) (key : string) (d : json) :
  sends_nothing (get_default data key d).
Proof. destruct data; simpl; auto. destruct (dict_lookup key fields); exact I. Qed.

Lemma quiet_get (data : json) (key : string) : sends_nothing (get data key).
Proof. apply quiet_get_default. Qed.

Lemma quiet_contains (key : string) (data : json) : sends_nothing (contains key data).
Proof. destruct data; exact I. Qed.

Lemma quiet_iterate (data : json) : sends_nothing (iterate data).
Proof. destruct data; exact I. Qed.

Lemma quiet_for_each (A B : Type) (f : A -> prog B) (xs : list A) :
  (forall x, sends_nothing (f x)) -> sends_nothing (for_each f xs).
Proof.
  intros Hf. induction xs as [| x rest IH]; simpl.
  - exact I.
  - apply quiet_bind; [apply Hf |]. intros y.
    apply quiet_bind; [exact IH |]. intros ys. exact I.
Qed.

Lemma quiet_select (f : json -> prog bool) (xs : list json) :
  (forall x, sends_nothing (f x)) -> sends_nothing (select f xs).
Proof.
  intros Hf. induction xs as [| x rest IH]; simpl.
  - exact I.
  - apply quiet_bind; [apply Hf |]. intros keep.
    apply quiet_bind; [exact IH |]. intros ys. exact I.
Qed.

#[local] Hint Resolve quiet_Ret quiet_Raise quiet_bind quiet_if quiet_getitem
  quiet_get_default quiet_get quiet_contains quiet_iterate quiet_for_each
  quiet_select : quiet.

Ltac quiet := repeat (intro || apply quiet_bind || apply quiet_if); auto with quiet.

Lemma quiet_AgentWallet_ (d : json) : sends_nothing (WalletOperations.AgentWallet_ d).
Proof. unfold WalletOperations.AgentWallet_. quiet. Qed.

Lemma quiet_parse_service (d : json) : sends_nothing (ServiceOperations._parse_service d).
Proof. unfold ServiceOperations._parse_service. quiet. Qed.

Lemma quiet_parse_payment (d : json) : sends_nothing (PaymentOperations._parse_payment d).
Proof. unfold PaymentOperations._parse_payment. quiet. Qed.

Lemma quiet_parse_receipt (d : json) : sends_nothing (PaymentOperations._parse_receipt d).
Proof. unfold PaymentOperations._parse_receipt. quiet. Qed.

Lemma quiet_parse_dispute (d : json) : sends_nothing (DisputeOperations._parse_dispute d).
Proof. unfold DisputeOperations._parse_dispute. quiet. Qed.

Lemma quiet_parse_webhook (d : json) : sends_nothing (WebhookOperations._parse_webhook d).
Proof. unfold WebhookOperations._parse_webhook. quiet. Qed.

Lemma quiet_ReputationScore_ (d : json) : sends_nothing (AgentPayClient.ReputationScore_ d).
Proof. unfold AgentPayClient.ReputationScore_. quiet. Qed.

Lemma quiet_ExecutionResult_ (d : json) (sid : string) (r : option ExecutionReceipt.t)
      (p : option Payment.t) :
  sends_nothing (PaymentOperations.ExecutionResult_ d sid r p).
Proof. unfold PaymentOperations.ExecutionResult_. quiet. Qed.

Lemma quiet_scan (webhook_id : string) (l : list Webhook.t) :
  sends_nothing (WebhookOperations.scan webhook_id l).
Proof.
  induction l as [| w rest IH]; simpl; [exact I |].
  destruct (py_eq_str (Webhook.id w) webhook_id); [exact I | exact IH].
Qed.

#[local] Hint Resolve quiet_AgentWallet_ quiet_parse_service quiet_parse_payment
  quiet_parse_receipt quiet_parse_dispute quiet_parse_webhook
  quiet_ReputationScore_ quiet_ExecutionResult_ quiet_scan : quiet.

Lemma run_quiet (A : Type) (srv : server) (p : prog A) :
  sends_nothing p -> run srv p = ([], outcome_of p).
Proof. destruct p; simpl; intros H; [reflexivity | reflexivity | destruct H]. Qed.

Section Stepping.

Variable srv : server.

Lemma trace_returning (A : Type) (tag : A -> value) (p : prog A) :
  trace srv (returning tag p) = trace srv p.
Proof.
  unfold trace. rewrite run_returning.
  destruct (run srv p) as [sent [a | e]]; reflexivity.
Qed.

Lemma result_returning (A : Type) (tag : A -> value) (p : prog A) :
  result srv (returning tag p) = tagged tag (result srv p).
Proof.
  unfold result. rewrite run_returning.
  destruct (run srv p) as [sent [a | e]]; reflexivity.
Qed.

Lemma trace_try_except (A : Type) (p : prog A) (handler : exn -> exn) :
  trace srv (try_except p handler) = trace srv p.
Proof.
  unfold trace. rewrite run_try_except.
  destruct (run srv p) as [sent [a | e]]; reflexivity.
Qed.

Lemma result_try_except (A : Type) (p : prog A) (handler : exn -> exn) :
  result srv (try_except p handler) = handled handler (result srv p).
Proof.
  unfold result. rewrite run_try_except.
  destruct (run srv p) as [sent [a | e]]; reflexivity.
Qed.

Lemma trace_bind_quiet (A B : Type) (p : prog A) (f : A -> prog B) :
  (forall a, sends_nothing (f a)) -> trace srv (bind p f) = trace srv p.
Proof.
  intros Hf. unfold trace. rewrite run_bind.
  destruct (run srv p) as [sent [a | e]]; [| reflexivity].
  rewrite run_quiet by apply Hf. simpl. apply app_nil_r.
Qed.

Lemma result_bind_quiet (A B : Type) (p : prog A) (f : A -> prog B) :
  (forall a, sends_nothing (f a)) ->
  result srv (bind p f) =
  match result srv p with
  | Returned a => outcome_of (f a)
  | Raised e => Raised e
  end.
Proof.
  intros Hf. unfold result. rewrite run_bind.
  destruct (run srv p) as [sent [a | e]]; [| reflexivity].
  rewrite run_quiet by apply Hf. reflexivity.
Qed.

Lemma trace_http_json (r : request) : trace srv (http_json r) = [r].
Proof. unfold trace. rewrite run_http_json. reflexivity. Qed.

Lemma result_http_json (r : request) :
  result srv (http_json r) =
  match srv r with
  | Failure cause => Raised (RequestException cause)
  | Reply data => Returned data
  | Crash cls => Raised (OtherError cls)
  end.
Proof. unfold result. rewrite run_http_json. reflexivity. Qed.

Lemma trace_http_status (r : request) : trace srv (http_status r) = [r].
Proof. unfold trace. simpl. destruct (srv r); reflexivity. Qed.

Lemma result_http_status (r : request) :
  result srv (http_status r) =
  match srv r with
  | Failure cause => Raised (RequestException cause)
  | Reply _ => Returned tt
  | Crash cls => Raised (OtherError cls)
  end.
Proof. unfold result. simpl. destruct (srv r); reflexivity. Qed.

Lemma result_quiet (A : Type) (p : prog A) :
  sends_nothing p -> result srv p = outcome_of p.
Proof. intros H. unfold result. rewrite run_quiet by exact H. reflexivity. Qed.

Lemma trace_quiet (A : Type) (p : prog A) :
  sends_nothing p -> trace srv p = [].
Proof. intros H. unfold trace. rewrite run_quiet by exact H. reflexivity. Qed.

End Stepping.

Lemma in_singleton (A : Type) (x y : A) : In x [y] -> x = y.
Proof. intros [H | []]. symmetry. exact H. Qed.

(** Unfolds an operation down to its request and its reply handling. *)
Ltac open_call :=
  unfold call,
    AgentPayClient.create_wallet, AgentPayClient.get_wallet, AgentPayClient.get_balance,
    AgentPayClient.register_service, AgentPayClient.search_services,
    AgentPayClient.get_service, AgentPayClient.execute, AgentPayClient.get_payment,
    AgentPayClient.get_receipt, AgentPayClient.open_dispute, AgentPayClient.get_dispute,
    AgentPayClient.get_payment_disputes, AgentPayClient.add_dispute_evidence,
    AgentPayClient.register_webhook, AgentPayClient.get_webhook,
    AgentPayClient.list_webhooks, AgentPayClient.delete_webhook,
    AgentPayClient.update_webhook, AgentPayClient.get_reputation,
    WalletOperations.get_balance, WalletOperations.create_wallet,
    WalletOperations.get_wallet,
    ServiceOperations.register_service, ServiceOperations.search_services,
    ServiceOperations.get_service,
    PaymentOperations.execute, PaymentOperations.get_payment,
    PaymentOperations.get_receipt, PaymentOperations.present_and_truthy,
    DisputeOperations.open_dispute, DisputeOperations.get_dispute,
    DisputeOperations.get_payment_disputes, DisputeOperations.add_evidence,
    DisputeOperations.for_payment,
    WebhookOperations.register_webhook, WebhookOperations.get_webhook,
    WebhookOperations.list_webhooks, WebhookOperations.delete_webhook,
    WebhookOperations.update_webhook,
    except_RequestException, on_RequestException.

(** Pushes [trace] and [result] through the structure of a call. *)
Ltac step_run :=
  repeat first
    [ rewrite trace_returning | rewrite result_returning
    | rewrite trace_try_except | rewrite result_try_except
    | rewrite trace_bind_quiet by quiet
    | rewrite result_bind_quiet by quiet
    | rewrite trace_http_json | rewrite result_http_json
    | rewrite trace_http_status | rewrite result_http_status ].

(* ------------------------------------------------------------------ *)
(** ** Transport failures *)

Lemma handled_never_transport (A : Type) (handler : exn -> exn) (o : outcome A)
      (msg : string) :
  (forall e m, handler e <> RequestException m) ->
  handled handler o <> Raised (RequestException msg).
Proof.
  intros Hh. destruct o as [a | e]; simpl; [discriminate |].
  intros H. inversion H as [H']. exact (Hh _ _ H').
Qed.

Lemma tagged_never_transport (A : Type) (tag : A -> value) (o : outcome A) (msg : string) :
  o <> Raised (RequestException msg) -> tagged tag o <> Raised (RequestException msg).
Proof.
  destruct o as [a | e]; simpl; [discriminate |].
  intros H H'. apply H. inversion H'. reflexivity.
Qed.

Ltac never_transport :=
  apply tagged_never_transport; apply handled_never_transport;
  let e := fresh "e" in
  intros e ?; destruct e as [[] ? | ? | ? | | | ?]; discriminate.

(** No operation lets a [requests.RequestException] through. *)
Lemma no_raw_transport_exception (str_upper : string -> string)
      (c : AgentPayClient.t) (op : operation) (srv : server)
      (msg : string) :
  result srv (call str_upper c op) <> Raised (RequestException msg).
Proof.
  destruct op; open_call; step_run; try never_transport.
  - (* get_balance: the wallet is fetched first *)
    apply tagged_never_transport.
    match goal with
    | |- match ?o with _ => _ end <> _ =>
        assert (Ho : o <> Raised (RequestException msg))
          by (apply handled_never_transport;
              intros e ?; destruct e as [[] ? | ? | ? | | | ?]; discriminate);
        destruct o as [w | e]
    end.
    + unfold outcome_of, result.
      destruct (str_upper currency =? "BSV"); [discriminate |].
      destruct (str_upper currency =? "MNEE"); discriminate.
    + intros H. apply Ho. inversion H. reflexivity.
  - (* add_evidence *)
    rewrite result_quiet by exact I. discriminate.
Qed.

(** C2.  Whatever request of an operation the transport fails on (network
    error, timeout, non-2xx status: a [requests.RequestException] with
    message [cause]), the operation ends by raising the error class of its
    resource, a class of the SDK's hierarchy, with a message made of the
    operation's prefix followed by [cause]; and under no server does an
    operation end with the transport's own exception. *)
Theorem transport_failure_reraised_as_resource_error (str_upper : string -> string)
        (c : AgentPayClient.t) (op : operation) (srv : server)
        (r : request) (cause : string) :
  In r (trace srv (call str_upper c op)) ->
  srv r = Failure cause ->
  result srv (call str_upper c op)
  = Raised (SDK (resource_error op) (failure_prefix op ++ cause))
  /\ is_AgentPayError (resource_error op) = true
  /\ forall srv' msg, result srv' (call str_upper c op) <> Raised (RequestException msg).
Proof.
  intros Hin Hfail. split; [| split].
  - revert Hin Hfail. destruct op; open_call; step_run.
    all: try (intros Hin Hfail; apply in_singleton in Hin; subst r;
              rewrite Hfail; reflexivity).
    rewrite trace_quiet by exact I. intros [].
  - destruct op; reflexivity.
  - intros srv' msg. apply no_raw_transport_exception.
Qed.

(** A refused connection during [create_wallet]. *)
Lemma create_wallet_connection_refused :
  let c := AgentPayClient.__init__ "http://localhost:3100" None in
  let srv : server := fun _ => Failure "Connection refused" in
  let r := mk_request POST "http://localhost:3100/api/wallets"
                      [("Content-Type", "application/json")] [] None in
  In r (trace srv (call upper c CreateWallet))
  /\ srv r = Failure "Connection refused"
  /\ result srv (call upper c CreateWallet)
     = Raised (SDK WalletError "Failed to create wallet: Connection refused").
Proof.
  intros c srv r.
  assert (Hin : In r (trace srv (call upper c CreateWallet))) by (simpl; left; reflexivity).
  assert (Hfail : srv r = Failure "Connection refused") by reflexivity.
  split; [exact Hin | split; [exact Hfail |]].
  exact (proj1 (@transport_failure_reraised_as_resource_error upper
                  c CreateWallet srv r "Connection refused" Hin Hfail)).
Defined.

(* ------------------------------------------------------------------ *)
(** ** Adding evidence *)

(** C6.  [add_dispute_evidence] sends no request and ends by raising
    [DisputeError] with the message that tells the caller to pass the
    evidence to [open_dispute], whatever the dispute id, the evidence, the
    client and the server. *)
Theorem add_dispute_evidence_always_raises (str_upper : string -> string)
        (c : AgentPayClient.t) (dispute_id evidence : string) (srv : server) :
  run srv (AgentPayClient.add_dispute_evidence c dispute_id evidence)
  = ([], Raised (SDK DisputeError
                   ("Adding evidence after opening a dispute is not supported by this API version. "
                    ++ "Pass evidence when calling open_dispute(...).")))
  /\ is_AgentPayError DisputeError = true
  /\ trace srv (call str_upper c (AddDisputeEvidence dispute_id evidence)) = []
  /\ forall d, result srv (call str_upper c (AddDisputeEvidence dispute_id evidence))
               <> Returned (VDispute d).
Proof.
  repeat split.
  intros d. open_call. step_run. rewrite result_quiet by exact I. discriminate.
Qed.

(* ------------------------------------------------------------------ *)
(** ** Request headers *)

(** C9.  Every request an operation of a client built by
    [AgentPayClient(base, api_key)] sends carries exactly the headers
    expected of its group: the JSON content type; with a (non-empty)
    credential also [Authorization: Bearer <key>], and for the payment,
    dispute and webhook groups [x-api-key: <key>] as well, while the wallet
    and service groups (and the reputation lookup) send the bearer header
    only; without a credential the content type alone. *)
Theorem auth_headers_by_group (str_upper : string -> string)
        (base : string) (api_key : option string) (op : operation)
        (srv : server) (r : request) :
  In r (trace srv (call str_upper (AgentPayClient.__init__ base api_key) op)) ->
  headers r = expected_headers (resource_of op) api_key.
Proof.
  destruct op; open_call; step_run.
  all: try (intros Hin; apply in_singleton in Hin; subst r; simpl;
            unfold WalletOperations._get_headers, ServiceOperations._get_headers,
                   PaymentOperations._get_headers, DisputeOperations._get_headers,
                   WebhookOperations._get_headers, expected_headers, key_set; simpl;
            destruct api_key as [k |]; [destruct (k =? "") |]; reflexivity).
  rewrite trace_quiet by exact I. intros [].
Qed.

(** A payment request of a client with a credential. *)
Lemma auth_headers_by_group_witness :
  let c := AgentPayClient.__init__ "https://api.agentspay.io/" (Some "test-key") in
  let srv : server := fun _ => Failure "down" in
  let r := mk_request GET "https://api.agentspay.io/api/payments/pay_1"
                      [ ("Content-Type", "application/json");
                        ("Authorization", "Bearer test-key");
                        ("x-api-key", "test-key") ] [] None in
  In r (trace srv (call upper c (GetPayment "pay_1")))
  /\ headers r = expected_headers Payments (Some "test-key").
Proof.
  intros c srv r.
  assert (Hin : In r (trace srv (call upper c (GetPayment "pay_1"))))
    by (simpl; left; reflexivity).
  split; [exact Hin |].
  exact (@auth_headers_by_group upper "https://api.agentspay.io/" (Some "test-key")
           (GetPayment "pay_1") srv r Hin).
Defined.

(* ------------------------------------------------------------------ *)
(** ** The success key of a reply *)

(** Reading the success key of a reply that is an object. *)
Lemma outcome_get_then (A : Type) (fields : list (string * json)) (key : string)
      (k : json -> prog A) :
  outcome_of (v <- get (JObj fields) key ;; k v)
  = outcome_of (k (match dict_lookup key fields with Some v => v | None => JNull end)).
Proof.
  unfold get, get_default. destruct (dict_lookup key fields); reflexivity.
Qed.

(** C10.  For each of the eleven single-record operations, a reply whose
    success key is present with a falsy value (null, false, 0, the empty
    string, list or object) ends the call with the operation's resource
    error and its "missing" message, which is also how the call ends on any
    reply that lacks the key. *)
Theorem falsy_success_value_treated_as_missing (str_upper : string -> string)
        (c : AgentPayClient.t) (op : operation) (key : string) (srv : server)
        (fields : list (string * json)) (v : json) :
  success_key op = Some key ->
  (forall r, In r (trace srv (call str_upper c op)) -> srv r = Reply (JObj fields)) ->
  dict_lookup key fields = Some v ->
  truthy v = false ->
  result srv (call str_upper c op) = Raised (SDK (resource_error op) (missing_message op))
  /\ forall (srv' : server) (fields' : list (string * json)),
       (forall r, In r (trace srv' (call str_upper c op)) -> srv' r = Reply (JObj fields')) ->
       dict_lookup key fields' = None ->
       result srv' (call str_upper c op) = result srv (call str_upper c op).
Proof.
  intros Hkey Hsrv Hfound Hfalsy.
  assert (Hhere : result srv (call str_upper c op)
                  = Raised (SDK (resource_error op) (missing_message op))).
  { revert Hsrv. destruct op; simpl in Hkey; try discriminate;
      injection Hkey as <-; open_call; step_run; intros Hsrv;
      rewrite (Hsrv _ (or_introl eq_refl)); rewrite outcome_get_then, Hfound;
      unfold outcome_of, result; simpl; rewrite Hfalsy; reflexivity. }
  split; [exact Hhere |].
  intros srv' fields' Hsrv' Hmissing. rewrite Hhere.
  revert Hsrv'. destruct op; simpl in Hkey; try discriminate;
    injection Hkey as <-; open_call; step_run; intros Hsrv';
    rewrite (Hsrv' _ (or_introl eq_refl)); rewrite outcome_get_then, Hmissing;
    reflexivity.
Qed.

(** [get_wallet] on a reply whose ["wallet"] is the empty object. *)
Lemma falsy_success_value_witness :
  let c := AgentPayClient.__init__ "http://localhost:3100" None in
  let fields := [("wallet", JObj [])] in
  let srv : server := fun _ => Reply (JObj fields) in
  success_key (GetWallet "w1") = Some "wallet"
  /\ dict_lookup "wallet" fields = Some (JObj [])
  /\ truthy (JObj []) = false
  /\ result srv (call upper c (GetWallet "w1")) = Raised (SDK WalletError "Wallet w1 not found").
Proof.
  intros c fields srv.
  split; [reflexivity | split; [reflexivity | split; [reflexivity |]]].
  exact (proj1 (@falsy_success_value_treated_as_missing upper
                  c (GetWallet "w1") "wallet" srv fields (JObj [])
                  eq_refl (fun r _ => eq_refl) eq_refl eq_refl)).
Defined.

(* ------------------------------------------------------------------ *)
(** ** Parsers against their field tables *)

(** Reads the next field of a record being built. *)
Ltac read_field :=
  match goal with
  | |- match bind (match dict_lookup ?k ?rec with _ => _ end) _ with _ => _ end =>
      let H := fresh "Hk" in
      destruct (dict_lookup k rec) eqn:H; simpl
  end.

(** A required key turned out to be missing. *)
Ltac key_missing :=
  match goal with
  | H : dict_lookup ?k _ = None |- exists key, KeyError ?k = KeyError key /\ _ =>
      exists k; split; [reflexivity | split; [simpl; tauto | exact H]]
  end.

(** Every field of the built record is what its rule says. *)
Ltac fields_agree :=
  repeat constructor; simpl;
  match goal with
  | H : dict_lookup ?k ?rec = _ |- context [dict_lookup ?k ?rec] => rewrite H
  end; reflexivity.

Ltac follow_table :=
  simpl; repeat (read_field; try key_missing); fields_agree.

Lemma AgentWallet_obeys : obeys wallet_fields WalletOperations.AgentWallet_.
Proof.
  intros record. unfold WalletOperations.AgentWallet_, wallet_fields, get.
  follow_table.
Qed.

Lemma parse_service_obeys : obeys service_fields ServiceOperations._parse_service.
Proof.
  intros record. unfold ServiceOperations._parse_service, service_fields, get.
  follow_table.
Qed.

Lemma parse_payment_obeys : obeys payment_fields PaymentOperations._parse_payment.
Proof.
  intros record. unfold PaymentOperations._parse_payment, payment_fields, get.
  follow_table.
Qed.

Lemma parse_receipt_obeys : obeys receipt_fields PaymentOperations._parse_receipt.
Proof.
  intros record. unfold PaymentOperations._parse_receipt, receipt_fields, get.
  follow_table.
Qed.

Lemma parse_dispute_obeys : obeys dispute_fields DisputeOperations._parse_dispute.
Proof.
  intros record. unfold DisputeOperations._parse_dispute, dispute_fields, get.
  follow_table.
Qed.

Lemma parse_webhook_obeys : obeys webhook_fields WebhookOperations._parse_webhook.
Proof.
  intros record. unfold WebhookOperations._parse_webhook, webhook_fields, get.
  follow_table.
Qed.

Lemma ReputationScore_obeys : obeys reputation_fields AgentPayClient.ReputationScore_.
Proof.
  intros record. unfold AgentPayClient.ReputationScore_, reputation_fields.
  follow_table.
Qed.

Lemma ExecutionResult_obeys (service_id : string) (receipt : option ExecutionReceipt.t)
      (payment : option Payment.t) :
  obeys (execution_fields service_id)
        (fun data => PaymentOperations.ExecutionResult_ data service_id receipt payment).
Proof.
  intros record. unfold PaymentOperations.ExecutionResult_, execution_fields.
  follow_table.
Qed.

(* ------------------------------------------------------------------ *)
(** ** Defaults *)

(** C4, as claimed, fails: a service payload that has neither ["timeout"]
    nor ["disputeWindow"] is parsed into a record whose [timeout] and
    [dispute_window] are 30; and an execution reply with only
    ["paymentId"] gives a result with the requested service id, an empty
    output, time 0 and status ["pending"]. *)
Lemma defaults_beyond_get_balance :
  (exists fields s,
      service_without_timeout = JObj fields
      /\ dict_lookup "timeout" fields = None
      /\ dict_lookup "disputeWindow" fields = None
      /\ ServiceOperations._parse_service service_without_timeout = Ret s
      /\ Service.timeout s = JNum 30
      /\ Service.dispute_window s = JNum 30)
  /\ result (fun _ => Reply (JObj [("paymentId", JStr "payment_789")]))
            (AgentPayClient.execute (AgentPayClient.__init__ "http://localhost:3100" None)
                                    "service_456" "wallet_123" (JObj []))
     = Returned (ExecutionResult.mk (JStr "payment_789") (JStr "service_456") (JObj [])
                                    (JNum 0) (JStr "pending") None None).
Proof.
  split.
  - eexists. eexists. repeat split.
  - reflexivity.
Qed.

(** C4, amended.  Each parser reads its record as its field table says:
    a required key that is missing ends the parse with [KeyError], an
    optional one leaves [None], a defaulted one puts the default.  The
    defaulted fields are exactly [timeout] and [disputeWindow] of a service
    (30 each) and [serviceId] (the requested id), [output] (empty object),
    [executionTimeMs] (0) and [status] (["pending"]) of an execution
    result; no field of a wallet, payment, receipt, dispute, webhook or
    reputation record has a default. *)
Theorem field_defaults_of_the_model :
  obeys wallet_fields WalletOperations.AgentWallet_
  /\ obeys service_fields ServiceOperations._parse_service
  /\ obeys payment_fields PaymentOperations._parse_payment
  /\ obeys receipt_fields PaymentOperations._parse_receipt
  /\ obeys dispute_fields DisputeOperations._parse_dispute
  /\ obeys webhook_fields WebhookOperations._parse_webhook
  /\ obeys reputation_fields AgentPayClient.ReputationScore_
  /\ (forall service_id receipt payment,
         obeys (execution_fields service_id)
               (fun data => PaymentOperations.ExecutionResult_ data service_id
                                                              receipt payment))
  /\ defaults wallet_fields = []
  /\ defaults service_fields
     = [("timeout", Defaulted (JNum 30)); ("disputeWindow", Defaulted (JNum 30))]
  /\ defaults payment_fields = []
  /\ defaults receipt_fields = []
  /\ defaults dispute_fields = []
  /\ defaults webhook_fields = []
  /\ defaults reputation_fields = []
  /\ (forall service_id,
         defaults (execution_fields service_id)
         = [ ("serviceId", Defaulted (JStr service_id));
             ("output", Defaulted (JObj []));
             ("executionTimeMs", Defaulted (JNum 0));
             ("status", Defaulted (JStr "pending")) ]).
Proof.
  repeat match goal with |- _ /\ _ => split end; try reflexivity.
  - exact AgentWallet_obeys.
  - exact parse_service_obeys.
  - exact parse_payment_obeys.
  - exact parse_receipt_obeys.
  - exact parse_dispute_obeys.
  - exact parse_webhook_obeys.
  - exact ReputationScore_obeys.
  - exact ExecutionResult_obeys.
Qed.

(* ------------------------------------------------------------------ *)
(** ** Missing keys *)

Lemma required_key_field (R : Type) (table : list (field R)) (key : string) :
  In key (required_keys table) ->
  exists f, In f table /\ how f = Required /\ wire_key f = key.
Proof.
  unfold required_keys. rewrite in_map_iff.
  intros [f [Hkey Hin]]. apply filter_In in Hin. destruct Hin as [Hin Hreq].
  exists f. repeat split; try assumption.
  destruct (how f); simpl in Hreq; try discriminate. reflexivity.
Qed.

(** A table-following parser fails with [KeyError] on a record that lacks
    a required key. *)
Lemma obeys_missing (R : Type) (table : list (field R)) (parse : json -> prog R)
      (record : list (string * json)) (key : string) :
  obeys table parse ->
  In key (required_keys table) -> dict_lookup key record = None ->
  exists key', In key' (required_keys table) /\ dict_lookup key' record = None
               /\ parse (JObj record) = Raise (KeyError key').
Proof.
  intros Hobeys Hin Hnone. specialize (Hobeys record).
  destruct (parse (JObj record)) as [r | e | r k].
  - apply required_key_field in Hin. destruct Hin as [f [Hf [Hreq Hkey]]].
    rewrite Forall_forall in Hobeys. specialize (Hobeys f Hf).
    rewrite Hreq, Hkey, Hnone in Hobeys. discriminate.
  - destruct Hobeys as [key' [-> [Hin' Hnone']]].
    exists key'. repeat split; assumption.
  - destruct Hobeys.
Qed.

(** ... and returns a record when every required key is there. *)
Lemma obeys_present (R : Type) (table : list (field R)) (parse : json -> prog R)
      (record : list (string * json)) :
  obeys table parse ->
  (forall key, In key (required_keys table) -> dict_lookup key record <> None) ->
  exists r, parse (JObj record) = Ret r.
Proof.
  intros Hobeys Hall. specialize (Hobeys record).
  destruct (parse (JObj record)) as [r | e | r k].
  - exists r. reflexivity.
  - destruct Hobeys as [key' [_ [Hin' Hnone']]]. destruct (Hall key' Hin' Hnone').
  - destruct Hobeys.
Qed.

(** The reply handling shared by the single-record operations. *)
Lemma single_record_reply (A : Type) (parse : json -> prog A) (e : exn)
      (key : string) (fields : list (string * json)) :
  outcome_of (v <- get (JObj fields) key ;;
              if negb (truthy v) then Raise e else parse v)
  = match dict_lookup key fields with
    | Some v => if truthy v then outcome_of (parse v) else Raised e
    | None => Raised e
    end.
Proof.
  rewrite outcome_get_then.
  destruct (dict_lookup key fields) as [v |]; [| reflexivity].
  destruct (truthy v); reflexivity.
Qed.

Lemma nonempty_object_truthy (record : list (string * json)) :
  record <> [] -> truthy (JObj record) = true.
Proof. destruct record; [intros H; destruct H |]; reflexivity. Qed.

(** The table-following parser behind each single-record operation. *)
Ltac parser_obeys :=
  first [ exact AgentWallet_obeys | exact parse_service_obeys
        | exact parse_payment_obeys | exact parse_receipt_obeys
        | exact parse_dispute_obeys | exact parse_webhook_obeys
        | exact ReputationScore_obeys ].

(** C1, as claimed, fails: a reputation reply whose record has only
    ["agentId"] ends [get_reputation] with Python's [KeyError] for
    ["totalJobs"], which is not an exception of the SDK's hierarchy. *)
Lemma missing_nested_field_raises_KeyError :
  let c := AgentPayClient.__init__ "http://localhost:3100" None in
  let reply := JObj [("reputation", JObj [("agentId", JStr "agent_1")])] in
  In "totalJobs" (mandatory_fields (GetReputation "agent_1"))
  /\ result (fun _ => Reply reply) (call upper c (GetReputation "agent_1"))
     = Raised (KeyError "totalJobs")
  /\ is_domain_error (KeyError "totalJobs") = false.
Proof.
  intros c reply. split; [simpl; tauto | split; reflexivity].
Qed.

(** C1, amended.  For each single-record operation and a reply that is an
    object: when the success key is missing, the call ends with the
    operation's resource error, an exception of the SDK's hierarchy; when
    the record under the key lacks a mandatory field, the call ends with
    Python's [KeyError] naming a missing mandatory field, no record is
    returned and nothing is defaulted, but the exception is not one of the
    SDK's; when every mandatory field is there, a record is returned. *)
Theorem missing_key_outcomes (str_upper : string -> string)
        (c : AgentPayClient.t) (op : operation) (key : string) (srv : server)
        (fields : list (string * json)) :
  success_key op = Some key ->
  (forall r, In r (trace srv (call str_upper c op)) -> srv r = Reply (JObj fields)) ->
  (dict_lookup key fields = None ->
   result srv (call str_upper c op) = Raised (SDK (resource_error op) (missing_message op))
   /\ is_domain_error (SDK (resource_error op) (missing_message op)) = true)
  /\ (forall record,
         dict_lookup key fields = Some (JObj record) -> record <> [] ->
         ((exists f, In f (mandatory_fields op) /\ dict_lookup f record = None) ->
          exists f, In f (mandatory_fields op) /\ dict_lookup f record = None
                    /\ result srv (call str_upper c op) = Raised (KeyError f)
                    /\ is_domain_error (KeyError f) = false)
         /\ ((forall f, In f (mandatory_fields op) -> dict_lookup f record <> None) ->
             exists v, result srv (call str_upper c op) = Returned v)).
Proof.
  intros Hkey Hsrv. split.
  - intros Hnone. split; [| destruct op; reflexivity].
    revert Hsrv. destruct op; simpl in Hkey; try discriminate;
      injection Hkey as <-; open_call; step_run; intros Hsrv;
      rewrite (Hsrv _ (or_introl eq_refl)); rewrite single_record_reply, Hnone;
      reflexivity.
  - intros record Hfound Hnonempty.
    pose proof (nonempty_object_truthy Hnonempty) as Htruthy.
    split.
    + intros [f [Hin Hmiss]].
      revert Hsrv Hin. destruct op; simpl in Hkey; try discriminate;
        injection Hkey as <-; open_call; step_run; unfold mandatory_fields;
        intros Hsrv Hin;
        rewrite (Hsrv _ (or_introl eq_refl));
        rewrite single_record_reply, Hfound, Htruthy;
        (eapply obeys_missing in Hin; [| parser_obeys | exact Hmiss]);
        destruct Hin as [f' [Hin' [Hmiss' Hparse]]];
        exists f'; rewrite Hparse; repeat split; assumption.
    + revert Hsrv. destruct op; simpl in Hkey; try discriminate;
        injection Hkey as <-; open_call; step_run; unfold mandatory_fields;
        intros Hsrv Hall;
        rewrite (Hsrv _ (or_introl eq_refl));
        rewrite single_record_reply, Hfound, Htruthy;
        (eapply obeys_present in Hall; [| parser_obeys]);
        destruct Hall as [rec Hparse]; rewrite Hparse; eexists; reflexivity.
Qed.

(** [get_receipt] on a reply without ["receipt"]. *)
Lemma missing_key_outcomes_witness :
  let c := AgentPayClient.__init__ "http://localhost:3100" None in
  let srv : server := fun _ => Reply (JObj [("ok", JBool true)]) in
  success_key (GetReceipt "rcpt_1") = Some "receipt"
  /\ dict_lookup "receipt" [("ok", JBool true)] = None
  /\ result srv (call upper c (GetReceipt "rcpt_1"))
     = Raised (SDK PaymentError "Receipt rcpt_1 not found").
Proof.
  intros c srv.
  split; [reflexivity | split; [reflexivity |]].
  exact (proj1 (proj1 (@missing_key_outcomes upper c (GetReceipt "rcpt_1") "receipt" srv
                         [("ok", JBool true)] eq_refl (fun r _ => eq_refl))
                      eq_refl)).
Defined.

(* ------------------------------------------------------------------ *)
(** ** Balances *)

Lemma in_all_ascii (a : ascii) : In a all_ascii.
Proof.
  unfold all_ascii. apply in_map_iff. exists (nat_of_ascii a). split.
  - apply ascii_nat_embedding.
  - apply in_seq. pose proof (nat_ascii_bounded a). lia.
Qed.

Lemma same_letter_table :
  forallb (fun a =>
    forallb (fun b => Bool.eqb (Ascii.eqb (upper_ascii a) (upper_ascii b))
                               (same_letter a b)) all_ascii) all_ascii = true.
Proof. vm_compute. reflexivity. Qed.

(** Two characters have the same upper-case form exactly when they are the
    same letter up to case. *)
Lemma upper_ascii_same_letter (a b : ascii) :
  Ascii.eqb (upper_ascii a) (upper_ascii b) = same_letter a b.
Proof.
  pose proof same_letter_table as H.
  rewrite forallb_forall in H. specialize (H a (in_all_ascii a)).
  rewrite forallb_forall in H. specialize (H b (in_all_ascii b)).
  apply Bool.eqb_prop in H. exact H.
Qed.

Lemma upper_eq_ignore_case (s t : string) :
  (upper s =? upper t) = eq_ignore_case s t.
Proof.
  revert t. induction s as [| a s IH]; intros [| b t]; simpl; try reflexivity.
  rewrite upper_ascii_same_letter, IH. reflexivity.
Qed.

(** ASCII upper-casing keeps ASCII text ASCII and other text not. *)
Lemma is_ascii_upper (s : string) : is_ascii (upper s) = is_ascii s.
Proof.
  induction s as [| a s IH]; simpl; [reflexivity |].
  rewrite IH. f_equal.
  destruct a as [[] [] [] [] [] [] [] []]; reflexivity.
Qed.

(** A code equal to BSV or MNEE up to the case of ASCII letters is ASCII
    text. *)
Lemma balance_key_ascii (currency key : string) :
  balance_key currency = Some key -> is_ascii currency = true.
Proof.
  unfold balance_key. rewrite <- is_ascii_upper.
  rewrite <- !upper_eq_ignore_case.
  destruct (upper currency =? upper "BSV") eqn:Hbsv.
  - intros _. apply String.eqb_eq in Hbsv. rewrite Hbsv. reflexivity.
  - destruct (upper currency =? upper "MNEE") eqn:Hmnee; intros H; [| discriminate H].
    apply String.eqb_eq in Hmnee. rewrite Hmnee. reflexivity.
Qed.

(** Where [str.upper()] is ASCII upper-casing, the field it selects is the
    one of the comparison without regard to letter case. *)
Lemma selected_balance_upper (currency : string) :
  selected_balance (upper currency) = balance_key currency.
Proof.
  unfold selected_balance, balance_key.
  change (upper currency =? "BSV") with (upper currency =? upper "BSV").
  change (upper currency =? "MNEE") with (upper currency =? upper "MNEE").
  rewrite !upper_eq_ignore_case. reflexivity.
Qed.

(** The branch [get_balance] takes is the one the upper-cased currency code
    selects. *)
Lemma currency_branch (A : Type) (code : string) (bsv mnee other : A) :
  (if code =? "BSV" then bsv
   else if code =? "MNEE" then mnee else other)
  = match selected_balance code with
    | Some key => if key =? "balance" then bsv else mnee
    | None => other
    end.
Proof.
  unfold selected_balance.
  destruct (code =? "BSV"); [reflexivity |].
  destruct (code =? "MNEE"); reflexivity.
Qed.

(** The wallet request. *)
Lemma trace_get_balance (str_upper : string -> string) (c : AgentPayClient.t)
      (wallet_id currency : string) (srv : server) :
  trace srv (AgentPayClient.get_balance str_upper c wallet_id currency)
  = trace srv (AgentPayClient.get_wallet c wallet_id).
Proof.
  open_call. rewrite trace_bind_quiet; [reflexivity |].
  intros w. rewrite currency_branch.
  destruct (selected_balance (str_upper currency)) as [key |];
    [destruct (key =? "balance") |]; exact I.
Qed.

(** What [get_balance] ends with, from what [get_wallet] ends with. *)
Lemma result_get_balance (str_upper : string -> string) (c : AgentPayClient.t)
      (wallet_id currency : string) (srv : server) :
  result srv (AgentPayClient.get_balance str_upper c wallet_id currency)
  = match result srv (AgentPayClient.get_wallet c wallet_id) with
    | Returned w =>
        match selected_balance (str_upper currency) with
        | Some key =>
            Returned (if key =? "balance"
                      then py_or (AgentWallet.balance w) (JNum 0)
                      else py_or (AgentWallet.balance_mnee w) (JNum 0))
        | None => Raised (SDK WalletError ("Invalid currency: " ++ currency))
        end
    | Raised e => Raised e
    end.
Proof.
  unfold AgentPayClient.get_balance, WalletOperations.get_balance.
  fold (AgentPayClient.get_wallet c wallet_id).
  rewrite result_bind_quiet.
  - destruct (result srv (AgentPayClient.get_wallet c wallet_id)) as [w | e];
      [| reflexivity].
    rewrite currency_branch.
    destruct (selected_balance (str_upper currency)) as [key |];
      [destruct (key =? "balance") |]; reflexivity.
  - intros w. rewrite currency_branch.
    destruct (selected_balance (str_upper currency)) as [key |];
      [destruct (key =? "balance") |]; exact I.
Qed.

(** C3.  [get_balance(wallet_id, currency)] sends the request of
    [get_wallet(wallet_id)] and nothing else.  The currency code is compared
    after [str.upper()], whatever that function does to the code
    ([str_upper]): on a reply with a well-formed wallet, a code whose upper
    case is ["BSV"] selects ["balance"], one whose upper case is ["MNEE"]
    selects ["balanceMnee"]; a number under the selected key is returned as
    it is, and zero is returned when the key is missing; a code whose upper
    case is neither ends the call with [WalletError], and under no server
    does it return a value.  Where [str.upper()] upper-cases ASCII text
    letter by letter, as Python's does, a code equal to BSV or MNEE up to
    the case of its ASCII letters selects that currency's field, and on
    ASCII codes the selection is exactly that comparison: an ASCII code
    that is neither BSV nor MNEE in any letter case raises.  (A code with
    other characters is decided by [str.upper()] alone: Python's maps
    the long s, U+017F, to ["S"], so a code written with it between a b
    and a v selects ["balance"].) *)
Theorem get_balance_by_currency (str_upper : string -> string)
        (c : AgentPayClient.t) (wallet_id currency : string) (srv : server)
        (fields record : list (string * json)) :
  (forall r, In r (trace srv (AgentPayClient.get_wallet c wallet_id)) ->
             srv r = Reply (JObj fields)) ->
  dict_lookup "wallet" fields = Some (JObj record) ->
  (forall key, In key (required_keys wallet_fields) -> dict_lookup key record <> None) ->
  trace srv (AgentPayClient.get_balance str_upper c wallet_id currency)
  = [mk_request GET (base_url (AgentPayClient._wallet c) ++ "/api/wallets/" ++ wallet_id)
                (WalletOperations._get_headers (AgentPayClient._wallet c)) [] None]
  /\ match selected_balance (str_upper currency) with
     | Some key =>
         (forall n, dict_lookup key record = Some (JNum n) ->
                    result srv (AgentPayClient.get_balance str_upper c wallet_id currency)
                    = Returned (JNum n))
         /\ (dict_lookup key record = None ->
             result srv (AgentPayClient.get_balance str_upper c wallet_id currency)
             = Returned (JNum 0))
     | None =>
         result srv (AgentPayClient.get_balance str_upper c wallet_id currency)
         = Raised (SDK WalletError ("Invalid currency: " ++ currency))
         /\ forall srv' v,
              result srv' (AgentPayClient.get_balance str_upper c wallet_id currency)
              <> Returned v
     end
  /\ ((forall s, is_ascii s = true -> str_upper s = upper s) ->
      (forall key, balance_key currency = Some key ->
                   selected_balance (str_upper currency) = Some key)
      /\ (is_ascii currency = true ->
          selected_balance (str_upper currency) = balance_key currency)).
Proof.
  intros Hsrv Hfound Hall.
  assert (Htruthy : truthy (JObj record) = true).
  { destruct record; [| reflexivity].
    exfalso. apply (Hall "id"); [simpl; tauto | reflexivity]. }
  destruct (@obeys_present _ _ _ record AgentWallet_obeys Hall) as [w Hparse].
  pose proof (AgentWallet_obeys record) as Hw. rewrite Hparse in Hw.
  rewrite Forall_forall in Hw.
  assert (Hbsv := Hw (mk_field "balance" Optional AgentWallet.balance)
                     ltac:(simpl; auto 10)).
  assert (Hmnee := Hw (mk_field "balanceMnee" Optional AgentWallet.balance_mnee)
                      ltac:(simpl; auto 10)).
  clear Hw.
  simpl in Hbsv, Hmnee.
  split; [| split].
  - rewrite trace_get_balance. open_call. step_run. reflexivity.
  - assert (Hwallet : result srv (AgentPayClient.get_wallet c wallet_id) = Returned w).
    { revert Hsrv. open_call. step_run. intros Hsrv.
      rewrite (Hsrv _ (or_introl eq_refl)).
      rewrite single_record_reply, Hfound, Htruthy, Hparse. reflexivity. }
    rewrite result_get_balance, Hwallet.
    unfold selected_balance.
    destruct (str_upper currency =? "BSV") eqn:Hb.
    + simpl. split.
      * intros n Hn. rewrite Hn in Hbsv. injection Hbsv as <-.
        unfold py_or. simpl. destruct (n =? 0)%Z eqn:Hz; [| reflexivity].
        apply Z.eqb_eq in Hz. subst n. reflexivity.
      * intros Hn. rewrite Hn in Hbsv. injection Hbsv as <-. reflexivity.
    + destruct (str_upper currency =? "MNEE") eqn:Hm.
      * simpl. split.
        -- intros n Hn. rewrite Hn in Hmnee. injection Hmnee as <-.
           unfold py_or. simpl. destruct (n =? 0)%Z eqn:Hz; [| reflexivity].
           apply Z.eqb_eq in Hz. subst n. reflexivity.
        -- intros Hn. rewrite Hn in Hmnee. injection Hmnee as <-. reflexivity.
      * split; [reflexivity |].
        intros srv' v. rewrite result_get_balance.
        unfold selected_balance. rewrite Hb, Hm.
        destruct (result srv' (AgentPayClient.get_wallet c wallet_id)); discriminate.
  - intros Hascii.
    assert (Hlink : is_ascii currency = true ->
                    selected_balance (str_upper currency) = balance_key currency).
    { intros Hcur. rewrite (Hascii _ Hcur). apply selected_balance_upper. }
    split; [| exact Hlink].
    intros key Hkey. rewrite Hlink; [exact Hkey |].
    exact (balance_key_ascii _ Hkey).
Qed.

(** The MNEE balance of the sample wallet, asked for in lower case; on this
    ASCII code [str.upper()] is [upper]. *)
Lemma get_balance_by_currency_witness :
  let c := AgentPayClient.__init__ "http://localhost:3100" None in
  let srv : server := fun _ => Reply (JObj [("wallet", JObj sample_wallet)]) in
  selected_balance (upper "mnee") = Some "balanceMnee"
  /\ dict_lookup "balanceMnee" sample_wallet = Some (JNum 5000)
  /\ result srv (AgentPayClient.get_balance upper c "wallet_123" "mnee") = Returned (JNum 5000).
Proof.
  intros c srv.
  split; [reflexivity | split; [reflexivity |]].
  assert (Hall : forall key, In key (required_keys wallet_fields) ->
                             dict_lookup key sample_wallet <> None).
  { intros key Hin. simpl in Hin.
    destruct Hin as [<- | [<- | [<- | [<- | []]]]]; discriminate. }
  exact (proj1 (proj1 (proj2 (@get_balance_by_currency upper c "wallet_123" "mnee" srv
                                [("wallet", JObj sample_wallet)] sample_wallet
                                (fun r _ => eq_refl) eq_refl Hall)))
               5000%Z eq_refl).
Defined.

(* ------------------------------------------------------------------ *)
(** ** Disputes of a payment *)

(** On objects the comprehension's condition is [has_payment_id]. *)
Lemma select_for_payment (payment_id : string) (items : list json) :
  Forall (fun d => is_object d = true) items ->
  select (DisputeOperations.for_payment payment_id) items
  = Ret (filter (has_payment_id payment_id) items).
Proof.
  induction 1 as [| d rest Hd _ IH]; simpl; [reflexivity |].
  destruct d as [| | | | | o]; try discriminate.
  rewrite IH. unfold DisputeOperations.for_payment, get, get_default. simpl.
  destruct (dict_lookup "paymentId" o) as [[| | | s | |] |]; reflexivity.
Qed.

(** A comprehension whose body succeeds on every element. *)
Lemma for_each_all (A B : Type) (f : A -> prog B) (xs : list A) :
  (forall x, In x xs -> exists y, f x = Ret y) ->
  exists ys, for_each f xs = Ret ys /\ Forall2 (fun x y => f x = Ret y) xs ys.
Proof.
  induction xs as [| x rest IH]; intros Hall; simpl.
  - exists []. split; [reflexivity | constructor].
  - destruct (Hall x (or_introl eq_refl)) as [y Hy].
    destruct IH as [ys [Hys Hrel]]; [intros x' Hx'; apply Hall; right; exact Hx' |].
    exists (y :: ys). rewrite Hy. simpl. rewrite Hys. simpl.
    split; [reflexivity | constructor; assumption].
Qed.

Lemma Forall2_in_left (A B : Type) (R : A -> B -> Prop) (xs : list A) (ys : list B) :
  Forall2 R xs ys -> forall x, In x xs -> exists y, In y ys /\ R x y.
Proof.
  induction 1 as [| x y xs ys Hxy _ IH]; intros x' [].
  - subst x'. exists y. split; [left; reflexivity | exact Hxy].
  - destruct (IH x' H) as [y' [Hin Hr]]. exists y'. split; [right; exact Hin | exact Hr].
Qed.

Lemma Forall2_in_right (A B : Type) (R : A -> B -> Prop) (xs : list A) (ys : list B) :
  Forall2 R xs ys -> forall y, In y ys -> exists x, In x xs /\ R x y.
Proof.
  induction 1 as [| x y xs ys Hxy _ IH]; intros y' [].
  - subst y'. exists x. split; [left; reflexivity | exact Hxy].
  - destruct (IH y' H) as [x' [Hin Hr]]. exists x'. split; [right; exact Hin | exact Hr].
Qed.

(** A parsed dispute carries the payment id of its payload. *)
Lemma parsed_dispute_payment_id (payment_id : string) (d : json) (x : Dispute.t) :
  has_payment_id payment_id d = true ->
  DisputeOperations._parse_dispute d = Ret x ->
  Dispute.payment_id x = JStr payment_id.
Proof.
  destruct d as [| | | | | o]; simpl; try discriminate.
  intros Hid Hparse.
  pose proof (parse_dispute_obeys o) as Hobeys. rewrite Hparse in Hobeys.
  rewrite Forall_forall in Hobeys.
  assert (H := Hobeys (mk_field "paymentId" Required Dispute.payment_id)
                      ltac:(simpl; auto 10)).
  simpl in H.
  destruct (dict_lookup "paymentId" o) as [[| | | s | |] |]; try discriminate.
  apply String.eqb_eq in Hid. subst s. injection H as <-. reflexivity.
Qed.

(** C5.  [get_payment_disputes(payment_id)] sends one request, a GET of
    the whole dispute collection with no query parameter and no body.  On
    a reply whose ["disputes"] is a list of objects in which every dispute
    of the payment is well formed, it returns the parsed disputes of the
    payment, in the order of the reply: every returned dispute has the
    requested payment id and comes from an entry of the reply, and every
    entry of the reply with the requested payment id is returned; entries
    of other payments are left out. *)
Theorem get_payment_disputes_filters_client_side
        (c : AgentPayClient.t) (payment_id : string) (srv : server)
        (fields : list (string * json)) (items : list json) :
  (forall r, In r (trace srv (AgentPayClient.get_payment_disputes c payment_id)) ->
             srv r = Reply (JObj fields)) ->
  dict_lookup "disputes" fields = Some (JArr items) ->
  Forall (fun d => is_object d = true) items ->
  (forall d, In d items -> has_payment_id payment_id d = true ->
             exists x, DisputeOperations._parse_dispute d = Ret x) ->
  exists disputes,
    trace srv (AgentPayClient.get_payment_disputes c payment_id)
    = [mk_request GET (base_url (AgentPayClient._disputes c) ++ "/api/disputes")
                  (DisputeOperations._get_headers (AgentPayClient._disputes c)) [] None]
    /\ result srv (AgentPayClient.get_payment_disputes c payment_id) = Returned disputes
    /\ for_each DisputeOperations._parse_dispute (filter (has_payment_id payment_id) items)
       = Ret disputes
    /\ Forall (fun x => Dispute.payment_id x = JStr payment_id) disputes
    /\ (forall d, In d items -> has_payment_id payment_id d = true ->
                  exists x, In x disputes /\ DisputeOperations._parse_dispute d = Ret x)
    /\ (forall x, In x disputes ->
                  exists d, In d items /\ has_payment_id payment_id d = true
                            /\ DisputeOperations._parse_dispute d = Ret x).
Proof.
  intros Hsrv Hfound Hobjects Hwell.
  destruct (@for_each_all _ _ DisputeOperations._parse_dispute
              (filter (has_payment_id payment_id) items)) as [disputes [Hparse Hrel]].
  { intros d Hd. apply filter_In in Hd. destruct Hd as [Hin Hid].
    exact (Hwell d Hin Hid). }
  exists disputes. split; [| split; [| split; [| split; [| split]]]].
  - open_call. step_run. reflexivity.
  - revert Hsrv. open_call. step_run. intros Hsrv.
    rewrite (Hsrv _ (or_introl eq_refl)).
    unfold outcome_of, result, get_default. rewrite Hfound. cbn [bind iterate].
    fold (DisputeOperations.for_payment payment_id).
    rewrite (select_for_payment payment_id Hobjects). cbn [bind].
    rewrite Hparse. reflexivity.
  - exact Hparse.
  - apply Forall_forall. intros x Hx.
    destruct (Forall2_in_right Hrel x Hx) as [d [Hd Hdx]].
    apply filter_In in Hd. destruct Hd as [_ Hid].
    exact (parsed_dispute_payment_id payment_id d Hid Hdx).
  - intros d Hin Hid.
    apply (Forall2_in_left Hrel). apply filter_In. split; assumption.
  - intros x Hx. destruct (Forall2_in_right Hrel x Hx) as [d [Hd Hdx]].
    apply filter_In in Hd. destruct Hd as [Hin Hid].
    exists d. repeat split; assumption.
Qed.

(** The disputes of [pay_1] in the sample collection. *)
Lemma get_payment_disputes_witness :
  let c := AgentPayClient.__init__ "http://localhost:3100" None in
  let srv : server := fun _ => Reply (JObj [("disputes", JArr sample_disputes)]) in
  exists disputes,
    result srv (AgentPayClient.get_payment_disputes c "pay_1") = Returned disputes
    /\ map Dispute.id disputes = [JStr "d1"; JStr "d3"].
Proof.
  intros c srv.
  destruct (@get_payment_disputes_filters_client_side c "pay_1" srv
              [("disputes", JArr sample_disputes)] sample_disputes
              (fun r _ => eq_refl) eq_refl)
    as [disputes [_ [Hresult [Hparsed _]]]].
  - repeat constructor.
  - intros d Hin Hid. simpl in Hin.
    destruct Hin as [<- | [<- | [<- | []]]]; try discriminate; eexists; reflexivity.
  - exists disputes. split; [exact Hresult |].
    simpl in Hparsed. injection Hparsed as <-. reflexivity.
Defined.

(* ------------------------------------------------------------------ *)
(** ** Looking a webhook up *)

Lemma py_eq_str_true (v : json) (s : string) : py_eq_str v s = true <-> v = JStr s.
Proof.
  destruct v; simpl; split; intros H; try discriminate.
  - apply String.eqb_eq in H. subst. reflexivity.
  - injection H as ->. apply String.eqb_refl.
Qed.

(** The loop returns the first webhook with the id, or raises after the
    last one. *)
Lemma scan_first_match (webhook_id : string) (webhooks : list Webhook.t) :
  (exists before w after,
      webhooks = (before ++ w :: after)%list
      /\ Webhook.id w = JStr webhook_id
      /\ Forall (fun x => Webhook.id x <> JStr webhook_id) before
      /\ WebhookOperations.scan webhook_id webhooks = Ret w)
  \/ (Forall (fun x => Webhook.id x <> JStr webhook_id) webhooks
      /\ WebhookOperations.scan webhook_id webhooks
         = Raise (SDK WebhookError ("Webhook " ++ webhook_id ++ " not found"))).
Proof.
  induction webhooks as [| w rest IH]; simpl.
  - right. split; [constructor | reflexivity].
  - destruct (py_eq_str (Webhook.id w) webhook_id) eqn:Heq.
    + left. exists [], w, rest. apply py_eq_str_true in Heq.
      repeat split; [exact Heq | constructor].
    + assert (Hne : Webhook.id w <> JStr webhook_id).
      { intros H. apply py_eq_str_true in H. rewrite H in Heq. discriminate. }
      destruct IH as [[before [w' [after [-> [Hid [Hbefore Hscan]]]]]] | [Hnone Hscan]].
      * left. exists (w :: before), w', after.
        repeat split; [exact Hid | constructor; assumption | exact Hscan].
      * right. split; [constructor; assumption | exact Hscan].
Qed.

(** C7.  [get_webhook(webhook_id)] sends exactly the request of
    [list_webhooks()], a GET of the webhook collection, never a request
    for the single webhook.  When the listing returns, the call returns the
    first webhook of the listing whose id is [webhook_id]; when the listing
    has none, it raises [WebhookError] saying the webhook was not found. *)
Theorem get_webhook_scans_the_listing
        (c : AgentPayClient.t) (webhook_id : string) (srv : server)
        (webhooks : list Webhook.t) :
  result srv (AgentPayClient.list_webhooks c) = Returned webhooks ->
  trace srv (AgentPayClient.get_webhook c webhook_id)
  = trace srv (AgentPayClient.list_webhooks c)
  /\ trace srv (AgentPayClient.get_webhook c webhook_id)
     = [mk_request GET (base_url (AgentPayClient._webhooks c) ++ "/api/webhooks")
                   (WebhookOperations._get_headers (AgentPayClient._webhooks c)) [] None]
  /\ ((exists before w after,
          webhooks = (before ++ w :: after)%list
          /\ Webhook.id w = JStr webhook_id
          /\ Forall (fun x => Webhook.id x <> JStr webhook_id) before
          /\ result srv (AgentPayClient.get_webhook c webhook_id) = Returned w)
      \/ (Forall (fun x => Webhook.id x <> JStr webhook_id) webhooks
          /\ result srv (AgentPayClient.get_webhook c webhook_id)
             = Raised (SDK WebhookError ("Webhook " ++ webhook_id ++ " not found")))).
Proof.
  intros Hlist.
  split; [open_call; step_run; reflexivity |].
  split; [open_call; step_run; reflexivity |].
  assert (Hget : result srv (AgentPayClient.get_webhook c webhook_id)
                 = handled (fun e => match e with
                                     | SDK WebhookError _ => e
                                     | RequestException cause =>
                                         SDK WebhookError ("Failed to get webhook: " ++ cause)
                                     | _ => e
                                     end)
                           (outcome_of (WebhookOperations.scan webhook_id webhooks))).
  { revert Hlist. open_call. step_run. intros Hlist. rewrite Hlist. reflexivity. }
  rewrite Hget.
  destruct (scan_first_match webhook_id webhooks)
    as [[before [w [after [Hsplit [Hid [Hbefore Hscan]]]]]] | [Hnone Hscan]];
    rewrite Hscan.
  - left. exists before, w, after. repeat split; assumption.
  - right. split; [exact Hnone | reflexivity].
Qed.

(** Of two webhooks that share an id the first one is returned. *)
Lemma get_webhook_witness :
  let c := AgentPayClient.__init__ "http://localhost:3100" None in
  let srv : server :=
    fun _ => Reply (JObj [("webhooks", JArr [ sample_webhook "wh_1" "https://a.example";
                                              sample_webhook "wh_2" "https://b.example";
                                              sample_webhook "wh_2" "https://c.example" ])]) in
  (exists webhooks, result srv (AgentPayClient.list_webhooks c) = Returned webhooks)
  /\ trace srv (AgentPayClient.get_webhook c "wh_2")
     = [mk_request GET "http://localhost:3100/api/webhooks"
                   [("Content-Type", "application/json")] [] None]
  /\ (exists w, result srv (AgentPayClient.get_webhook c "wh_2") = Returned w
                /\ Webhook.url w = JStr "https://b.example").
Proof.
  intros c srv. split; [| split].
  - eexists. reflexivity.
  - exact (proj1 (proj2 (@get_webhook_scans_the_listing c "wh_2" srv _ eq_refl))).
  - eexists. split; reflexivity.
Defined.

(* ------------------------------------------------------------------ *)
(** ** Receipt and payment of an execution *)

(** The two statements of [execute] that read an embedded object bind
    what [embedded] says. *)
Lemma embedded_read (R A : Type) (parse : json -> prog R) (key : string)
      (fields : list (string * json)) (found : option R) (k : option R -> prog A) :
  embedded parse key fields found ->
  (has <- (present <- contains key (JObj fields) ;;
           if present then v <- getitem (JObj fields) key ;; Ret (truthy v)
           else Ret false) ;;
   x <- (if has then v <- getitem (JObj fields) key ;; r <- parse v ;; Ret (Some r)
         else Ret None) ;;
   k x)
  = k found.
Proof.
  intros [Hnone | v Hsome Hfalsy | v r Hsome Htruthy Hparse]; simpl.
  - rewrite Hnone. reflexivity.
  - rewrite Hsome. simpl. rewrite Hfalsy. reflexivity.
  - rewrite Hsome. simpl. rewrite Htruthy. simpl. rewrite Hparse. reflexivity.
Qed.

(** An embedded object that was read was in the reply. *)
Lemma embedded_only_if_present (R : Type) (parse : json -> prog R) (key : string)
      (fields : list (string * json)) (r : R) :
  embedded parse key fields (Some r) ->
  exists v, dict_lookup key fields = Some v /\ truthy v = true /\ parse v = Ret r.
Proof.
  intros H. inversion H as [| | v r' Hsome Htruthy Hparse]. subst.
  exists v. repeat split; assumption.
Qed.

(** C8.  On an execution reply that has ["paymentId"], the result's
    receipt is determined by the reply's ["receipt"] entry alone and its
    payment by the ["payment"] entry alone: a missing (or empty) entry
    leaves the component [None] and the call still returns; an entry that
    is there is parsed and included.  A component that is included was in
    the reply. *)
Theorem execute_embeds_receipt_and_payment_independently
        (c : AgentPayClient.t) (service_id buyer_wallet_id : string) (input_data : json)
        (srv : server) (fields : list (string * json)) (payment_id : json)
        (receipt : option ExecutionReceipt.t) (payment : option Payment.t) :
  (forall r, In r (trace srv (AgentPayClient.execute c service_id buyer_wallet_id input_data)) ->
             srv r = Reply (JObj fields)) ->
  dict_lookup "paymentId" fields = Some payment_id ->
  embedded PaymentOperations._parse_receipt "receipt" fields receipt ->
  embedded PaymentOperations._parse_payment "payment" fields payment ->
  exists res,
    result srv (AgentPayClient.execute c service_id buyer_wallet_id input_data)
    = Returned res
    /\ ExecutionResult.payment_id res = payment_id
    /\ ExecutionResult.receipt res = receipt
    /\ ExecutionResult.payment res = payment
    /\ (dict_lookup "receipt" fields = None -> ExecutionResult.receipt res = None)
    /\ (dict_lookup "payment" fields = None -> ExecutionResult.payment res = None).
Proof.
  intros Hsrv Hpid Hreceipt Hpayment.
  assert (Hres : exists res,
             PaymentOperations.ExecutionResult_ (JObj fields) service_id receipt payment
             = Ret res
             /\ ExecutionResult.payment_id res = payment_id
             /\ ExecutionResult.receipt res = receipt
             /\ ExecutionResult.payment res = payment).
  { unfold PaymentOperations.ExecutionResult_, getitem, get_default. rewrite Hpid.
    destruct (dict_lookup "serviceId" fields), (dict_lookup "output" fields),
      (dict_lookup "executionTimeMs" fields), (dict_lookup "status" fields);
      simpl; eexists; repeat split. }
  destruct Hres as [res [Hbuild [H1 [H2 H3]]]].
  exists res. split; [| split; [exact H1 | split; [exact H2 | split; [exact H3 | split]]]].
  - revert Hsrv. open_call. step_run. intros Hsrv.
    rewrite (Hsrv _ (or_introl eq_refl)).
    rewrite (embedded_read _ Hreceipt), (embedded_read _ Hpayment), Hbuild.
    reflexivity.
  - intros Hnone. rewrite H2.
    destruct receipt as [r |]; [| reflexivity].
    apply embedded_only_if_present in Hreceipt.
    destruct Hreceipt as [v [Hsome _]]. rewrite Hnone in Hsome. discriminate.
  - intros Hnone. rewrite H3.
    destruct payment as [p |]; [| reflexivity].
    apply embedded_only_if_present in Hpayment.
    destruct Hpayment as [v [Hsome _]]. rewrite Hnone in Hsome. discriminate.
Qed.

(** The reply of the SDK's own test: neither receipt nor payment. *)
Lemma execute_without_receipt_and_payment :
  let c := AgentPayClient.__init__ "http://localhost:3100" None in
  let fields := [ ("paymentId", JStr "payment_789"); ("serviceId", JStr "service_456");
                  ("output", JObj [("result", JStr "success")]);
                  ("executionTimeMs", JNum 250); ("status", JStr "success") ] in
  let srv : server := fun _ => Reply (JObj fields) in
  dict_lookup "receipt" fields = None
  /\ dict_lookup "payment" fields = None
  /\ exists res,
       result srv (AgentPayClient.execute c "service_456" "wallet_123" (JObj []))
       = Returned res
       /\ ExecutionResult.receipt res = None
       /\ ExecutionResult.payment res = None.
Proof.
  intros c fields srv.
  split; [reflexivity | split; [reflexivity |]].
  destruct (@execute_embeds_receipt_and_payment_independently
              c "service_456" "wallet_123" (JObj []) srv fields (JStr "payment_789")
              None None (fun r _ => eq_refl) eq_refl
              (@embedded_absent _ PaymentOperations._parse_receipt "receipt" fields eq_refl)
              (@embedded_absent _ PaymentOperations._parse_payment "payment" fields eq_refl))
    as [res [Hres [_ [Hreceipt [Hpayment _]]]]].
  exists res. repeat split; assumption.
Defined.

(* ------------------------------------------------------------------ *)
(** ** One request per call *)


(* ------------------------------------------------------------------ *)
(** ** The base URL and the wire contract *)

Lemma rstrip_slash_no_trailing_slash (s : string) :
  ends_with_slash (rstrip_slash s) = false.
Proof.
  induction s as [| c rest IH]; simpl; [reflexivity |].
  destruct (rstrip_slash rest) as [| a r] eqn:Hrest.
  - destruct (Ascii.eqb c "/") eqn:Hc; simpl; [reflexivity | exact Hc].
  - exact IH.
Qed.

Lemma rstrip_slash_only_slashes (s : string) :
  exists n, s = rstrip_slash s ++ slashes n.
Proof.
  induction s as [| c rest [n IH]]; simpl.
  - exists 0. reflexivity.
  - destruct (rstrip_slash rest) as [| a r] eqn:Hrest.
    + destruct (Ascii.eqb c "/") eqn:Hc.
      * apply Ascii.eqb_eq in Hc. subst c. exists (S n). simpl. rewrite IH at 1.
        reflexivity.
      * exists n. simpl. rewrite IH at 1. reflexivity.
    + exists n. simpl. rewrite IH at 1. reflexivity.
Qed.

Lemma rstrip_slash_fixed (s : string) :
  ends_with_slash s = false -> rstrip_slash s = s.
Proof.
  induction s as [| c rest IH]; simpl; [reflexivity |].
  destruct rest as [| a r].
  - intros Hc. simpl. rewrite Hc. reflexivity.
  - intros Hrest. rewrite (IH Hrest). reflexivity.
Qed.

(** X2.  [AgentPayClient(base_url, api_key)] keeps the base URL without
    its trailing slashes: what it keeps does not end with a slash and
    differs from the argument by trailing slashes only; the five groups
    get that same URL and the same key; building a client again from the
    kept URL changes nothing. *)
Theorem client_base_url_normalised (base : string) (api_key : option string) :
  let c := AgentPayClient.__init__ base api_key in
  ends_with_slash (AgentPayClient.base_url c) = false
  /\ (exists n, base = AgentPayClient.base_url c ++ slashes n)
  /\ Forall (fun g => g = mk_group (AgentPayClient.base_url c) api_key)
            [ AgentPayClient._wallet c; AgentPayClient._services c;
              AgentPayClient._payments c; AgentPayClient._disputes c;
              AgentPayClient._webhooks c ]
  /\ AgentPayClient.api_key c = api_key
  /\ AgentPayClient.__init__ (AgentPayClient.base_url c) api_key = c.
Proof.
  simpl. split; [apply rstrip_slash_no_trailing_slash |].
  split; [apply rstrip_slash_only_slashes |].
  split; [repeat constructor |].
  split; [reflexivity |].
  unfold AgentPayClient.__init__.
  rewrite rstrip_slash_fixed by apply rstrip_slash_no_trailing_slash. reflexivity.
Qed.


(* ------------------------------------------------------------------ *)
(** ** The exceptions an operation may end with *)

Create HintDb within discriminated.

Lemma only_Ret (A : Type) (P : exn -> bool) (a : A) : only P (Ret a).
Proof. exact I. Qed.

Lemma only_bind (A B : Type) (P : exn -> bool) (p : prog A) (f : A -> prog B) :
  only P p -> (forall a, only P (f a)) -> only P (bind p f).
Proof. destruct p; simpl; auto. Qed.

Lemma only_if (A : Type) (P : exn -> bool) (b : bool) (p q : prog A) :
  only P p -> only P q -> only P (if b then p else q).
Proof. destruct b; auto. Qed.

Lemma only_weaken (A : Type) (P Q : exn -> bool) (p : prog A) :
  (forall e, P e = true -> Q e = true) -> only P p -> only Q p.
Proof. intros HPQ. destruct p; simpl; auto. Qed.

Lemma builtin_own (cls : ErrorClass) (e : exn) : builtin e = true -> own cls e = true.
Proof. destruct e; simpl; intros H; try discriminate; reflexivity. Qed.

Lemma only_getitem (data : json) (key : string) : only builtin (getitem data key).
Proof. destruct data; simpl; try reflexivity. destruct (dict_lookup key fields); simpl; auto. Qed.

Lemma only_get_default (data : json) (key : string) (d : json) :
  only builtin (get_default data key d).
Proof. destruct data; simpl; try reflexivity. destruct (dict_lookup key fields); exact I. Qed.

Lemma only_get (data : json) (key : string) : only builtin (get data key).
Proof. apply only_get_default. Qed.

Lemma only_contains (key : string) (data : json) : only builtin (contains key data).
Proof. destruct data; simpl; auto. Qed.

Lemma only_iterate (data : json) : only builtin (iterate data).
Proof. destruct data; simpl; auto. Qed.

Lemma only_for_each (A B : Type) (P : exn -> bool) (f : A -> prog B) (xs : list A) :
  (forall x, only P (f x)) -> only P (for_each f xs).
Proof.
  intros Hf. induction xs as [| x rest IH]; simpl; [exact I |].
  apply only_bind; [apply Hf |]. intros y.
  apply only_bind; [exact IH |]. intros ys. exact I.
Qed.

Lemma only_select (P : exn -> bool) (f : json -> prog bool) (xs : list json) :
  (forall x, only P (f x)) -> only P (select f xs).
Proof.
  intros Hf. induction xs as [| x rest IH]; simpl; [exact I |].
  apply only_bind; [apply Hf |]. intros keep.
  apply only_bind; [exact IH |]. intros ys. exact I.
Qed.

#[local] Hint Resolve only_Ret only_getitem only_get_default only_get only_contains
  only_iterate : within.

(** Splits a program into its statements and leaves the reads to the
    hints. *)
Ltac within :=
  repeat first
    [ intro
    | apply only_bind
    | apply only_if
    | apply only_for_each
    | apply only_select
    | solve [auto with within]
    | solve [simpl; reflexivity]
    | solve [eapply only_weaken; [apply builtin_own | auto with within]] ].

Lemma parsers_raise_builtins :
  (forall d, only builtin (WalletOperations.AgentWallet_ d))
  /\ (forall d, only builtin (ServiceOperations._parse_service d))
  /\ (forall d, only builtin (PaymentOperations._parse_payment d))
  /\ (forall d, only builtin (PaymentOperations._parse_receipt d))
  /\ (forall d, only builtin (DisputeOperations._parse_dispute d))
  /\ (forall d, only builtin (WebhookOperations._parse_webhook d))
  /\ (forall d, only builtin (AgentPayClient.ReputationScore_ d))
  /\ (forall d sid r p, only builtin (PaymentOperations.ExecutionResult_ d sid r p)).
Proof.
  unfold WalletOperations.AgentWallet_, ServiceOperations._parse_service,
    PaymentOperations._parse_payment, PaymentOperations._parse_receipt,
    DisputeOperations._parse_dispute, WebhookOperations._parse_webhook,
    AgentPayClient.ReputationScore_, PaymentOperations.ExecutionResult_.
  repeat split; within.
Qed.

Lemma only_AgentWallet_ (d : json) : only builtin (WalletOperations.AgentWallet_ d).
Proof. apply parsers_raise_builtins. Qed.
Lemma only_parse_service (d : json) : only builtin (ServiceOperations._parse_service d).
Proof. apply parsers_raise_builtins. Qed.
Lemma only_parse_payment (d : json) : only builtin (PaymentOperations._parse_payment d).
Proof. apply parsers_raise_builtins. Qed.
Lemma only_parse_receipt (d : json) : only builtin (PaymentOperations._parse_receipt d).
Proof. apply parsers_raise_builtins. Qed.
Lemma only_parse_dispute (d : json) : only builtin (DisputeOperations._parse_dispute d).
Proof. apply parsers_raise_builtins. Qed.
Lemma only_parse_webhook (d : json) : only builtin (WebhookOperations._parse_webhook d).
Proof. apply parsers_raise_builtins. Qed.
Lemma only_ReputationScore_ (d : json) : only builtin (AgentPayClient.ReputationScore_ d).
Proof. apply parsers_raise_builtins. Qed.
Lemma only_ExecutionResult_ (d : json) (sid : string) (r : option ExecutionReceipt.t)
      (p : option Payment.t) :
  only builtin (PaymentOperations.ExecutionResult_ d sid r p).
Proof. apply parsers_raise_builtins. Qed.

Lemma only_scan (webhook_id : string) (l : list Webhook.t) :
  only (own WebhookError) (WebhookOperations.scan webhook_id l).
Proof.
  induction l as [| w rest IH]; simpl; [reflexivity |].
  destruct (py_eq_str (Webhook.id w) webhook_id); [exact I | exact IH].
Qed.

#[local] Hint Resolve only_AgentWallet_ only_parse_service only_parse_payment
  only_parse_receipt only_parse_dispute only_parse_webhook only_ReputationScore_
  only_ExecutionResult_ only_scan : within.

(** The outcome of a program that raises within [P]. *)
Lemma only_outcome (A : Type) (P : exn -> bool) (p : prog A) :
  only P p ->
  match outcome_of p with
  | Returned _ => True
  | Raised e => P e = true
  end.
Proof. destruct p; simpl; intros H; [exact I | exact H | destruct H]. Qed.









(* ------------------------------------------------------------------ *)
(** ** Replies that are not objects *)



(* ------------------------------------------------------------------ *)
(** ** Listings *)

(** A comprehension stops at the first element its body raises on. *)
Lemma for_each_first_failure (A B : Type) (f : A -> prog B) (good : list A) (bad : A)
      (rest : list A) (e : exn) :
  (forall x, In x good -> exists y, f x = Ret y) ->
  f bad = Raise e ->
  for_each f (good ++ bad :: rest)%list = Raise e.
Proof.
  induction good as [| x good IH]; intros Hgood Hbad; simpl.
  - rewrite Hbad. reflexivity.
  - destruct (Hgood x (or_introl eq_refl)) as [y Hy]. rewrite Hy. simpl.
    rewrite IH; [reflexivity | | exact Hbad].
    intros x' Hx'. apply Hgood. right. exact Hx'.
Qed.

(** The reply handling shared by [search_services] and [list_webhooks]. *)
Lemma listing_reply (A : Type) (parse : json -> prog A) (key : string)
      (fields : list (string * json)) (h : string -> exn) :
  listing_behaviour parse key fields
    (handled (on_RequestException h)
             (outcome_of (d <- get_default (JObj fields) key (JArr []) ;;
                          items <- iterate d ;;
                          for_each parse items))).
Proof.
  unfold listing_behaviour, get_default.
  repeat split.
  - intros ->. reflexivity.
  - intros ->. reflexivity.
  - intros items -> Hall.
    destruct (for_each_all parse items Hall) as [l [Hl Hrel]].
    exists l. split; [| exact Hrel]. cbn [bind iterate]. rewrite Hl. reflexivity.
  - intros good bad rest missing -> Hgood Hbad. cbn [bind iterate].
    rewrite (for_each_first_failure parse good bad rest Hgood Hbad). reflexivity.
  - intros ->. reflexivity.
Qed.



(** X7.  [list_webhooks] ends the same way over the ["webhooks"] key:
    empty list for a missing key or an empty list, one record per entry in
    order, [KeyError] of the first malformed entry for the whole listing,
    [TypeError] for [null]. *)
Theorem list_webhooks_outcomes
        (c : AgentPayClient.t) (srv : server) (fields : list (string * json)) :
  (forall r, In r (trace srv (AgentPayClient.list_webhooks c)) ->
             srv r = Reply (JObj fields)) ->
  listing_behaviour WebhookOperations._parse_webhook "webhooks" fields
    (result srv (AgentPayClient.list_webhooks c)).
Proof.
  open_call. step_run. intros Hsrv. rewrite (Hsrv _ (or_introl eq_refl)).
  apply (listing_reply WebhookOperations._parse_webhook "webhooks" fields).
Qed.

(** A listing whose second entry has no ["url"]. *)
Lemma list_webhooks_witness :
  let c := AgentPayClient.__init__ "http://localhost:3100" None in
  let bad := JObj [("id", JStr "wh_2")] in
  let fields := [("webhooks", JArr [sample_webhook "wh_1" "https://a.example"; bad])] in
  let srv : server := fun _ => Reply (JObj fields) in
  result srv (AgentPayClient.list_webhooks c) = Raised (KeyError "url").
Proof.
  intros c bad fields srv.
  refine (proj1 (proj2 (proj2 (proj2 (@list_webhooks_outcomes c srv fields
                                        (fun r _ => eq_refl)))))
                [sample_webhook "wh_1" "https://a.example"] bad [] "url" eq_refl _ eq_refl).
  intros x [<- | []]. eexists. reflexivity.
Defined.

(* ------------------------------------------------------------------ *)
(** ** How [get_webhook] fails *)

(** [list_webhooks] has caught every [requests.RequestException]. *)
Lemma list_webhooks_never_transport (c : AgentPayClient.t) (srv : server) (msg : string) :
  result srv (AgentPayClient.list_webhooks c) <> Raised (RequestException msg).
Proof.
  open_call. step_run. apply handled_never_transport.
  intros e ?; destruct e as [[] ? | ? | ? | | | ?]; discriminate.
Qed.

(** X8.  [get_webhook] fails exactly as the listing does: whatever
    [list_webhooks] raises (its [WebhookError] for a transport failure,
    the [KeyError] of a malformed entry anywhere in the listing, ...)
    leaves [get_webhook] unchanged, even when the webhook asked for is
    well formed.  Its own "Failed to get webhook" message is therefore
    never produced, under any server. *)
Theorem get_webhook_fails_as_the_listing
        (c : AgentPayClient.t) (webhook_id : string) (srv : server) (e : exn) :
  result srv (AgentPayClient.list_webhooks c) = Raised e ->
  result srv (AgentPayClient.get_webhook c webhook_id) = Raised e
  /\ forall srv' cause,
       result srv' (AgentPayClient.get_webhook c webhook_id)
       <> Raised (SDK WebhookError ("Failed to get webhook: " ++ cause)).
Proof.
  intros Hlist. split.
  - assert (Hcaught : forall msg, e <> RequestException msg).
    { intros msg ->. exact (@list_webhooks_never_transport _ _ _ Hlist). }
    revert Hlist. open_call. step_run. intros Hlist. rewrite Hlist. simpl.
    destruct e as [[] ? | msg | ? | | | ?]; try reflexivity.
    destruct (Hcaught msg eq_refl).
  - intros srv' cause. open_call. step_run.
    destruct (srv' _) as [cause' | data | cls]; simpl; [discriminate | | discriminate].
    match goal with
    | |- context [outcome_of ?p] =>
        pose proof (@only_outcome _ builtin p ltac:(within)) as Hp;
        destruct (outcome_of p) as [ws | e0]
    end; simpl.
    + destruct (scan_first_match webhook_id ws)
        as [[before [w [after [_ [_ [_ Hscan]]]]]] | [_ Hscan]];
        rewrite Hscan; simpl; discriminate.
    + destruct e0; simpl in Hp; try discriminate; simpl; discriminate.
Qed.

(** The webhook asked for comes first and is well formed; the entry after
    it has no ["url"]. *)
Lemma get_webhook_fails_as_the_listing_witness :
  let c := AgentPayClient.__init__ "http://localhost:3100" None in
  let srv : server :=
    fun _ => Reply (JObj [("webhooks", JArr [ sample_webhook "wh_1" "https://a.example";
                                              JObj [("id", JStr "wh_2")] ])]) in
  result srv (AgentPayClient.list_webhooks c) = Raised (KeyError "url")
  /\ result srv (AgentPayClient.get_webhook c "wh_1") = Raised (KeyError "url").
Proof.
  intros c srv.
  assert (H : result srv (AgentPayClient.list_webhooks c) = Raised (KeyError "url"))
    by reflexivity.
  split; [exact H |].
  exact (proj1 (@get_webhook_fails_as_the_listing c "wh_1" srv _ H)).
Defined.

(* ------------------------------------------------------------------ *)
(** ** How [get_payment_disputes] fails *)

(** The filter raises on the first entry that is not an object. *)
Lemma select_non_object (payment_id : string) (items : list json) :
  (exists d, In d items /\ is_object d = false) ->
  select (DisputeOperations.for_payment payment_id) items = Raise AttributeError.
Proof.
  induction items as [| d0 rest IH]; intros [d [Hin Hd]]; [destruct Hin |].
  destruct d0 as [| | | | | o]; try reflexivity.
  destruct Hin as [<- | Hin]; [discriminate |].
  simpl. rewrite IH by (exists d; split; assumption).
  unfold DisputeOperations.for_payment, get, get_default.
  destruct (dict_lookup "paymentId" o); reflexivity.
Qed.

(** A comprehension whose body raises on some element raises what the
    body raises on the first such element. *)
Lemma for_each_some_failure (A B : Type) (P : exn -> Prop) (f : A -> prog B)
      (xs : list A) :
  (forall x, In x xs -> (exists y, f x = Ret y) \/ (exists e, P e /\ f x = Raise e)) ->
  (exists x e, In x xs /\ f x = Raise e) ->
  exists e, P e /\ for_each f xs = Raise e.
Proof.
  induction xs as [| x rest IH]; intros Hall [x0 [e0 [Hin Hraise]]]; [destruct Hin |].
  simpl. destruct (Hall x (or_introl eq_refl)) as [[y Hy] | [e [He Hfx]]].
  - rewrite Hy. simpl.
    destruct Hin as [<- | Hin]; [rewrite Hy in Hraise; discriminate |].
    destruct IH as [e [He Hrest]].
    + intros x' Hx'. apply Hall. right. exact Hx'.
    + exists x0, e0. split; assumption.
    + exists e. split; [exact He |]. rewrite Hrest. reflexivity.
  - exists e. split; [exact He |]. rewrite Hfx. reflexivity.
Qed.

(** X9.  [get_payment_disputes], on a reply that is an object: without a
    ["disputes"] key it returns the empty list.  With a list under the
    key, an entry that is not an object, of whatever payment, ends the
    call with [AttributeError]; and when all entries are objects, a
    dispute of the requested payment that lacks a mandatory field ends the
    call with [KeyError] for a mandatory field, also when other disputes of
    the payment are well formed: no partial list is returned. *)
Theorem get_payment_disputes_failures
        (c : AgentPayClient.t) (payment_id : string) (srv : server)
        (fields : list (string * json)) :
  (forall r, In r (trace srv (AgentPayClient.get_payment_disputes c payment_id)) ->
             srv r = Reply (JObj fields)) ->
  (dict_lookup "disputes" fields = None ->
   result srv (AgentPayClient.get_payment_disputes c payment_id) = Returned [])
  /\ (forall items,
         dict_lookup "disputes" fields = Some (JArr items) ->
         (exists d, In d items /\ is_object d = false) ->
         result srv (AgentPayClient.get_payment_disputes c payment_id)
         = Raised AttributeError)
  /\ (forall items,
         dict_lookup "disputes" fields = Some (JArr items) ->
         Forall (fun d => is_object d = true) items ->
         (exists o key,
             In (JObj o) items /\ has_payment_id payment_id (JObj o) = true
             /\ In key (required_keys dispute_fields) /\ dict_lookup key o = None) ->
         exists key,
           In key (required_keys dispute_fields)
           /\ result srv (AgentPayClient.get_payment_disputes c payment_id)
              = Raised (KeyError key)).
Proof.
  open_call. step_run. intros Hsrv. rewrite (Hsrv _ (or_introl eq_refl)).
  unfold outcome_of, result, get_default.
  fold (DisputeOperations.for_payment payment_id).
  split; [| split].
  - intros ->. reflexivity.
  - intros items -> Hbad. cbn [bind iterate].
    rewrite select_non_object by exact Hbad. reflexivity.
  - intros items -> Hobjects [o [key [Hin [Hid [Hkey Hmissing]]]]]. cbn [bind iterate].
    rewrite (select_for_payment payment_id Hobjects). cbn [bind].
    destruct (@for_each_some_failure _ _
                (fun e => exists k, e = KeyError k /\ In k (required_keys dispute_fields))
                DisputeOperations._parse_dispute
                (filter (has_payment_id payment_id) items))
      as [e [[k [-> Hk]] Hraise]].
    + intros x Hx. apply filter_In in Hx. destruct Hx as [Hx _].
      rewrite Forall_forall in Hobjects. specialize (Hobjects x Hx).
      destruct x as [| | | | | ox]; try discriminate.
      pose proof (parse_dispute_obeys ox) as Hobeys.
      destruct (DisputeOperations._parse_dispute (JObj ox)) as [y | e | r k'].
      * left. exists y. reflexivity.
      * right. destruct Hobeys as [k' [-> [Hk' _]]].
        exists (KeyError k'). split; [exists k'; split; [reflexivity | exact Hk'] | reflexivity].
      * destruct Hobeys.
    + destruct (@obeys_missing _ _ _ o key parse_dispute_obeys Hkey Hmissing)
        as [k' [_ [_ Hparse]]].
      exists (JObj o), (KeyError k'). split; [| exact Hparse].
      apply filter_In. split; assumption.
    + exists k. split; [exact Hk |]. rewrite Hraise. reflexivity.
Qed.

(** A dispute of [pay_2] without its fields, asked for by its payment. *)
Lemma get_payment_disputes_failures_witness :
  let c := AgentPayClient.__init__ "http://localhost:3100" None in
  let srv : server := fun _ => Reply (JObj [("disputes", JArr sample_disputes)]) in
  exists key,
    In key (required_keys dispute_fields)
    /\ result srv (AgentPayClient.get_payment_disputes c "pay_2") = Raised (KeyError key).
Proof.
  intros c srv.
  refine (proj2 (proj2 (@get_payment_disputes_failures c "pay_2" srv
                          [("disputes", JArr sample_disputes)] (fun r _ => eq_refl)))
                sample_disputes eq_refl _ _).
  - repeat constructor.
  - exists [("paymentId", JStr "pay_2")], "id".
    split; [simpl; auto | split; [reflexivity | split; [simpl; auto | reflexivity]]].
Defined.

(* ------------------------------------------------------------------ *)
(** ** What is sent *)



(* ------------------------------------------------------------------ *)
(** ** What a returned record says about the reply *)

(** The record a table-following parser returns has, as the field of the
    table's first entry, the value under that entry's key. *)
Lemma first_field_of_parsed (R : Type) (f : field R) (table : list (field R))
      (parse : json -> prog R) (record : list (string * json)) (r : R) :
  obeys (f :: table) parse -> how f = Required ->
  parse (JObj record) = Ret r ->
  dict_lookup (wire_key f) record = Some (attr f r).
Proof.
  intros Hobeys Hreq Hparse. specialize (Hobeys record). rewrite Hparse in Hobeys.
  inversion Hobeys as [| ? ? Hfirst _]. rewrite Hreq in Hfirst.
  destruct (dict_lookup (wire_key f) record); simpl in Hfirst; [exact Hfirst | discriminate].
Qed.

(** A returned record was parsed from an object. *)
Ltac parsed_from_object Hob :=
  match goal with
  | |- context [outcome_of (?parse (JObj ?rec))] =>
      let Hp := fresh "Hparse" in
      destruct (parse (JObj rec)) as [rcd | ? | ? ?] eqn:Hp;
      [ unfold outcome_of, result; simpl; intros Hv; injection Hv as <-;
        exists rec; split; [reflexivity |];
        symmetry; exact (@first_field_of_parsed _ _ _ _ _ _ Hob eq_refl Hp)
      | unfold outcome_of, result; simpl; discriminate
      | exfalso; let Hx := fresh "Hx" in
                 pose proof (Hob rec) as Hx; rewrite Hp in Hx; exact Hx ]
  end.

(** X12.  When a single-record operation returns, the reply had an object
    under the operation's success key and the identifying field of the
    returned record ([id]; [agent_id] for a reputation) is the value that
    object has under ["id"] (["agentId"]): a created wallet, service,
    dispute or webhook carries the id the server sent. *)
Theorem returned_record_carries_the_reply_id (str_upper : string -> string)
        (c : AgentPayClient.t) (op : operation) (key : string) (srv : server)
        (fields : list (string * json)) (v : value) :
  success_key op = Some key ->
  (forall r, In r (trace srv (call str_upper c op)) -> srv r = Reply (JObj fields)) ->
  result srv (call str_upper c op) = Returned v ->
  exists record,
    dict_lookup key fields = Some (JObj record)
    /\ identifier v = dict_lookup (identifier_key op) record.
Proof.
  intros Hkey Hsrv. revert Hsrv.
  destruct op; simpl in Hkey; try discriminate; injection Hkey as <-;
    open_call; step_run; intros Hsrv; rewrite (Hsrv _ (or_introl eq_refl));
    rewrite single_record_reply;
    (destruct (dict_lookup _ fields) as [[| | | | | record] |];
     [ .. | discriminate ]);
    try (simpl; match goal with
                | |- context [if ?b then _ else _] => destruct b
                end; discriminate);
    try discriminate;
    simpl truthy;
    (destruct record as [| entry record']; [discriminate |]);
    cbv iota.
  all: first [ parsed_from_object AgentWallet_obeys
             | parsed_from_object parse_service_obeys
             | parsed_from_object parse_payment_obeys
             | parsed_from_object parse_receipt_obeys
             | parsed_from_object parse_dispute_obeys
             | parsed_from_object parse_webhook_obeys
             | parsed_from_object ReputationScore_obeys ].
Qed.

(** The wallet of the SDK's own test, created. *)
Lemma returned_record_carries_the_reply_id_witness :
  let c := AgentPayClient.__init__ "http://localhost:3100" None in
  let fields := [("wallet", JObj sample_wallet)] in
  let srv : server := fun _ => Reply (JObj fields) in
  let w := AgentWallet.mk (JStr "wallet_123") (JStr "pub_key_abc")
                          (JStr "1A1zP1eP5QGefi2DMPTfTL5SLmv7DivfNa")
                          (JStr "2026-02-14T12:00:00Z") (JNum 100000) (JNum 5000) in
  result srv (call upper c CreateWallet) = Returned (VWallet w)
  /\ exists record,
       dict_lookup "wallet" fields = Some (JObj record)
       /\ identifier (VWallet w) = dict_lookup "id" record.
Proof.
  intros c fields srv w.
  assert (H : result srv (call upper c CreateWallet) = Returned (VWallet w)) by reflexivity.
  split; [exact H |].
  exact (@returned_record_carries_the_reply_id upper c CreateWallet "wallet" srv fields
           (VWallet w) eq_refl (fun r _ => eq_refl) H).
Defined.

(* ------------------------------------------------------------------ *)
(** ** How [execute] fails *)

(** X13.  [execute], on a reply that is an object.  Without ["paymentId"]
    the call ends with [KeyError] for ["paymentId"], and only after the
    receipt and the payment have been read.  A receipt that is there but
    lacks a field ends the call with the parser's [KeyError], whatever the
    rest of the reply: the result of an execution whose receipt is
    malformed is not returned.  The same holds for a malformed payment
    once the receipt has been read. *)
Theorem execute_failures
        (c : AgentPayClient.t) (service_id buyer_wallet_id : string) (input_data : json)
        (srv : server) (fields : list (string * json)) :
  (forall r, In r (trace srv (AgentPayClient.execute c service_id buyer_wallet_id input_data)) ->
             srv r = Reply (JObj fields)) ->
  (forall receipt payment,
      dict_lookup "paymentId" fields = None ->
      embedded PaymentOperations._parse_receipt "receipt" fields receipt ->
      embedded PaymentOperations._parse_payment "payment" fields payment ->
      result srv (AgentPayClient.execute c service_id buyer_wallet_id input_data)
      = Raised (KeyError "paymentId"))
  /\ (forall v key,
         dict_lookup "receipt" fields = Some v -> truthy v = true ->
         PaymentOperations._parse_receipt v = Raise (KeyError key) ->
         result srv (AgentPayClient.execute c service_id buyer_wallet_id input_data)
         = Raised (KeyError key))
  /\ (forall receipt v key,
         embedded PaymentOperations._parse_receipt "receipt" fields receipt ->
         dict_lookup "payment" fields = Some v -> truthy v = true ->
         PaymentOperations._parse_payment v = Raise (KeyError key) ->
         result srv (AgentPayClient.execute c service_id buyer_wallet_id input_data)
         = Raised (KeyError key)).
Proof.
  open_call. step_run. intros Hsrv. rewrite (Hsrv _ (or_introl eq_refl)).
  split; [| split].
  - intros receipt payment Hnone Hreceipt Hpayment.
    rewrite (embedded_read _ Hreceipt), (embedded_read _ Hpayment).
    unfold PaymentOperations.ExecutionResult_, getitem. rewrite Hnone. reflexivity.
  - intros v key Hsome Htruthy Hparse.
    unfold outcome_of, result, contains, getitem. rewrite Hsome.
    cbn [bind]. rewrite Htruthy. cbn [bind]. rewrite Hparse. reflexivity.
  - intros receipt v key Hreceipt Hsome Htruthy Hparse.
    rewrite (embedded_read _ Hreceipt).
    unfold outcome_of, result, contains, getitem. rewrite Hsome.
    cbn [bind]. rewrite Htruthy. cbn [bind]. rewrite Hparse. reflexivity.
Qed.

(** An execution that went through, with a receipt that has no
    ["serviceId"]. *)
Lemma execute_failures_witness :
  let c := AgentPayClient.__init__ "http://localhost:3100" None in
  let receipt := JObj [("id", JStr "rcpt_1"); ("paymentId", JStr "payment_789")] in
  let fields := [ ("paymentId", JStr "payment_789"); ("status", JStr "success");
                  ("receipt", receipt) ] in
  let srv : server := fun _ => Reply (JObj fields) in
  result srv (AgentPayClient.execute c "service_456" "wallet_123" (JObj []))
  = Raised (KeyError "serviceId").
Proof.
  intros c receipt fields srv.
  exact (proj1 (proj2 (@execute_failures c "service_456" "wallet_123" (JObj []) srv fields
                         (fun r _ => eq_refl)))
               receipt "serviceId" eq_refl eq_refl eq_refl).
Defined.

(* ------------------------------------------------------------------ *)
(** ** The wallet is fetched before the currency is looked at *)

(** X14.  [get_balance] sends the wallet request whatever the currency
    code, valid or not; when fetching the wallet fails, that failure is
    what the call ends with, also for an invalid code; only with the wallet
    in hand is the code looked at, after [str.upper()] ([str_upper],
    whatever that function does to the code): a code whose upper case is
    neither ["BSV"] nor ["MNEE"] is invalid.  The value returned for a
    valid code is the stored balance when it is truthy and 0 otherwise, so
    a [null], [false] or empty balance reads as 0 and a balance the server
    sent as a non-empty string is returned as that string. *)
Theorem get_balance_after_fetch (str_upper : string -> string)
        (c : AgentPayClient.t) (wallet_id currency : string) (srv : server) :
  trace srv (AgentPayClient.get_balance str_upper c wallet_id currency)
  = trace srv (AgentPayClient.get_wallet c wallet_id)
  /\ length (trace srv (AgentPayClient.get_balance str_upper c wallet_id currency)) = 1
  /\ (forall e,
         result srv (AgentPayClient.get_wallet c wallet_id) = Raised e ->
         result srv (AgentPayClient.get_balance str_upper c wallet_id currency) = Raised e)
  /\ (forall w,
         result srv (AgentPayClient.get_wallet c wallet_id) = Returned w ->
         result srv (AgentPayClient.get_balance str_upper c wallet_id currency)
         = match selected_balance (str_upper currency) with
           | Some key =>
               let stored := if key =? "balance" then AgentWallet.balance w
                             else AgentWallet.balance_mnee w in
               Returned (if truthy stored then stored else JNum 0)
           | None => Raised (SDK WalletError ("Invalid currency: " ++ currency))
           end).
Proof.
  split; [apply trace_get_balance |].
  split; [rewrite trace_get_balance; open_call; step_run; reflexivity |].
  split.
  - intros e He. rewrite result_get_balance, He. reflexivity.
  - intros w Hw. rewrite result_get_balance, Hw.
    destruct (selected_balance (str_upper currency)) as [key |];
      [destruct (key =? "balance") |]; reflexivity.
Qed.

(* ------------------------------------------------------------------ *)
(** ** The same payload gives the same record *)

(** Handling [RequestException] leaves the outcome of a parser as it is. *)
Lemma handled_parse (A : Type) (h : string -> exn) (p : prog A) :
  only builtin p ->
  handled (fun e => match e with
                    | RequestException cause => h cause
                    | _ => e
                    end) (outcome_of p)
  = outcome_of p.
Proof.
  destruct p as [a | e | r k]; simpl; intros H; [reflexivity | | destruct H].
  destruct e; simpl in H; try discriminate; reflexivity.
Qed.

(** The outcome of a single-record operation depends on the value under
    its success key only. *)
Lemma single_record_outcome (str_upper : string -> string)
      (c : AgentPayClient.t) (op : operation) (key : string)
      (srv : server) (fields : list (string * json)) (v : json) :
  success_key op = Some key ->
  (forall r, In r (trace srv (call str_upper c op)) -> srv r = Reply (JObj fields)) ->
  dict_lookup key fields = Some v -> truthy v = true ->
  result srv (call str_upper c op) = parsed_as key v.
Proof.
  intros Hkey Hsrv Hfound Htruthy. revert Hsrv.
  destruct op; simpl in Hkey; try discriminate; injection Hkey as <-;
    open_call; step_run; intros Hsrv; rewrite (Hsrv _ (or_introl eq_refl));
    rewrite single_record_reply, Hfound, Htruthy;
    rewrite handled_parse by auto with within; reflexivity.
Qed.

(** X15.  Two single-record operations with the same success key
    ([register_service] and [get_service], [create_wallet] and
    [get_wallet], [open_dispute] and [get_dispute], [register_webhook] and
    [update_webhook]) end the same way on replies that carry the same
    non-empty value under the key: the same record, or the same
    exception.  What was registered and is then fetched with the same
    payload is the same record, field by field. *)
Theorem same_payload_same_record (str_upper : string -> string)
        (c : AgentPayClient.t) (op1 op2 : operation) (key : string)
        (srv1 srv2 : server) (fields1 fields2 : list (string * json)) (v : json) :
  success_key op1 = Some key ->
  success_key op2 = Some key ->
  (forall r, In r (trace srv1 (call str_upper c op1)) -> srv1 r = Reply (JObj fields1)) ->
  (forall r, In r (trace srv2 (call str_upper c op2)) -> srv2 r = Reply (JObj fields2)) ->
  dict_lookup key fields1 = Some v ->
  dict_lookup key fields2 = Some v ->
  truthy v = true ->
  result srv1 (call str_upper c op1) = result srv2 (call str_upper c op2).
Proof.
  intros Hkey1 Hkey2 Hsrv1 Hsrv2 Hfound1 Hfound2 Htruthy.
  rewrite (@single_record_outcome str_upper c op1 key srv1 _ v Hkey1 Hsrv1 Hfound1 Htruthy).
  rewrite (@single_record_outcome str_upper c op2 key srv2 _ v Hkey2 Hsrv2 Hfound2 Htruthy).
  reflexivity.
Qed.

(** A service registered, then fetched by id with other fields around
    it in the reply. *)
Lemma same_payload_same_record_witness :
  let c := AgentPayClient.__init__ "http://localhost:3100" None in
  let register := RegisterService "wallet_123" "TextAnalyzer" "NLP service" 1000
                                  "https://agent.com/analyze" "nlp" "bsv" "post" 30 30
                                  JNull JNull in
  let srv1 : server := fun _ => Reply (JObj [("service", service_without_timeout)]) in
  let srv2 : server := fun _ => Reply (JObj [("ok", JBool true);
                                             ("service", service_without_timeout)]) in
  result srv1 (call upper c register) = result srv2 (call upper c (GetService "service_456")).
Proof.
  intros c register srv1 srv2.
  exact (@same_payload_same_record upper c register (GetService "service_456") "service"
           srv1 srv2 _ _ service_without_timeout
           eq_refl eq_refl (fun r _ => eq_refl) (fun r _ => eq_refl)
           eq_refl eq_refl eq_refl).
Defined.
